(** * TetraEar, AMR-Code: the speech channel decoder driver

    A shallow embedding of [cdecoder.c] (the [main] program) and of
    [init_params.c] (the parameter set loader), with the properties of the
    specification proved over it.

    C integers are mathematical integers ([Z]) with the wrap-around of their
    width written out at every store; arrays are lists; the globals and the
    locals of [main] are threaded through an explicit state. *)

From Stdlib Require Import String Ascii DecimalString.
From Stdlib Require Import ZArith List Bool Lia.
Import ListNotations.
Local Open Scope Z_scope.

(** ** Machine integers *)

Module Word.

(** Two's complement value of [z] held in a signed integer of [w] bits. *)
Definition signed (w : Z) (z : Z) : Z :=
  (z + 2 ^ (w - 1)) mod 2 ^ w - 2 ^ (w - 1).

Definition in_range (w : Z) (z : Z) : Prop :=
  - 2 ^ (w - 1) <= z < 2 ^ (w - 1).

End Word.

(** [typedef short Word16; typedef long Word32;] (32 bits, as its name says)
    and the C [int]. *)
Definition Word16 (z : Z) : Z := Word.signed 16 z.
Definition Word32 (z : Z) : Z := Word.signed 32 z.
Definition int (z : Z) : Z := Word.signed 32 z.

(** ** init_params.c *)

(** [#define ALLOW_NEG(x) (((x) < 0) ? (((-x)%2 == 1) ? (-x)/2 - N1_2 + 1
                                                     : (x)/2 + 1) : (x))]

    [N1_2] is the global the macro body names.  [/] and [%] are the C
    operators, which truncate towards zero ([Z.quot] and [Z.rem]). *)
Definition ALLOW_NEG (N1_2 : Z) (x : Z) : Z :=
  if x <? 0
  then (if Z.rem (- x) 2 =? 1
        then Z.quot (- x) 2 - N1_2 + 1
        else Z.quot x 2 + 1)
  else x.

(** The constants and tables of one coder ([const_TETRA.tab],
    [arrays_TETRA.tab], [const_AMR475.tab], [arrays_AMR475.tab]); these
    files are included by [init_params.c] and their values are taken as
    given.  Only the entries the driver and the CRC tables use are kept. *)
Record coder_tab : Type := mk_coder_tab {
  N1_2_tab : Z;
  Length_vocoder_frame_tab : Z;
  SIZE_TAB_CRC_tab : list Z;          (* SIZE_TAB_CRC1 .. SIZE_TAB_CRC8 *)
  TAB_CRC_tab : list (list Z);        (* TAB_CRC1 .. TAB_CRC8 *)
  Fs_SIZE_TAB_CRC_tab : list Z;       (* Fs_SIZE_TAB_CRC1 .. 4 *)
  Fs_TAB_CRC_tab : list (list Z)      (* Fs_TAB_CRC1 .. 4 *)
}.

(** The globals of [globals.c] and [arrays.h] that [init_params] assigns. *)
Record params : Type := mk_params {
  SpFrms_per_TDMFrm : Z;
  N1_2 : Z;
  Length_vocoder_frame : Z;
  TAB_CRC : list (list Z);
  Fs_TAB_CRC : list (list Z)
}.

(** [for (i=0; i<SIZE; i++) TAB_CRCk[i] = ALLOW_NEG(TAB_CRCk_X[i]);]
    the destination is an array of [Word16]. *)
Definition load_TAB_CRC (n1_2 : Z) (size : Z) (tab : list Z) : list Z :=
  map (fun x => Word16 (ALLOW_NEG n1_2 x)) (firstn (Z.to_nat size) tab).

Fixpoint load_TAB_CRCs (n1_2 : Z) (sizes : list Z) (tabs : list (list Z))
  : list (list Z) :=
  match sizes, tabs with
  | size :: sizes', tab :: tabs' =>
      load_TAB_CRC n1_2 size tab :: load_TAB_CRCs n1_2 sizes' tabs'
  | _, _ => []
  end.

Section InitParams.

Variables TETRA AMR475 : coder_tab.

Definition load_coder (frames : Z) (t : coder_tab) : params :=
  let n1_2 := N1_2_tab t in
  {| SpFrms_per_TDMFrm := frames;
     N1_2 := n1_2;
     Length_vocoder_frame := Length_vocoder_frame_tab t;
     TAB_CRC := load_TAB_CRCs n1_2 (SIZE_TAB_CRC_tab t) (TAB_CRC_tab t);
     Fs_TAB_CRC :=
       load_TAB_CRCs n1_2 (Fs_SIZE_TAB_CRC_tab t) (Fs_TAB_CRC_tab t) |}.

(** [switch (CoderType) { case 1: ... AMR475 ...; default: ... TETRA ... }] *)
Definition init_params (CoderType : Z) : params :=
  if CoderType =? 1 then load_coder 3 AMR475 else load_coder 2 TETRA.

End InitParams.

(** ** The C library and the files *)

Definition isspace (c : ascii) : bool :=
  let n := nat_of_ascii c in
  (Nat.eqb n 32 || (Nat.leb 9 n && Nat.leb n 13))%bool.

Definition digit_value (c : ascii) : option Z :=
  let n := Z.of_nat (nat_of_ascii c) in
  if (48 <=? n) && (n <=? 57) then Some (n - 48) else None.

Fixpoint skip_spaces (s : string) : string :=
  match s with
  | String c r => if isspace c then skip_spaces r else s
  | EmptyString => s
  end.

Fixpoint read_digits (acc : Z) (s : string) : Z :=
  match s with
  | String c r =>
      match digit_value c with
      | Some d => read_digits (10 * acc + d) r
      | None => acc
      end
  | EmptyString => acc
  end.

(** [atoi]: leading white space, an optional sign, then decimal digits up to
    the first other character; the value is converted to [int]. *)
Definition atoi (s : string) : Z :=
  match skip_spaces s with
  | String "-"%char r => int (- read_digits 0 r)
  | String "+"%char r => int (read_digits 0 r)
  | r => int (read_digits 0 r)
  end.

(** [argv[k]] and [argv[k][0]]; the empty string starts with its
    terminating NUL. *)
Definition arg (argv : list string) (k : nat) : string := nth k argv EmptyString.

Definition first_char (s : string) : ascii :=
  match s with
  | String c _ => c
  | EmptyString => zero
  end.

(** The output stream.  [written] is what has reached the file, in 16-bit
    words; [faults] is the behaviour of the device at the coming [fwrite]
    calls, one entry per call: [None] lets the call write everything,
    [Some q] lets it write [q] items at most.  Past the end of the list every
    call succeeds. *)
Record FILE_out : Type := mk_FILE_out {
  written : list Z;
  faults : list (option nat)
}.

(** [fwrite(ptr, sizeof(short), nmemb, fout)]: the items written are appended
    and their number is returned.  [ptr] is the array from the address given
    on; [nmemb] is not negative at any call of [main] for a vocoder frame
    length between 0 and 244. *)
Definition fwrite (ptr : list Z) (nmemb : Z) (f : FILE_out) : Z * FILE_out :=
  let want := Z.to_nat nmemb in
  let room := match faults f with
              | Some q :: _ => Nat.min q want
              | _ => want
              end in
  let items := firstn room ptr in
  (Z.of_nat (length items),
   {| written := written f ++ items; faults := tl (faults f) |}).

(** Modelled from the spec: [Read_Tetra_File] (the Burst Reader) is declared
    in [channel.h] and defined outside the files at hand.  It pulls one
    radio time-slot of 432 samples from the input per call and fails with
    [-1] at the end of the input.  The input file is the list of its
    complete time-slots; [at_end] is what the caller does on [-1], and
    [with_slot] what it does with the slot read and the rest of the file. *)
Definition Read_Tetra_File {A : Type} (fin : list (list Z)) (at_end : A)
  (with_slot : list Z -> list (list Z) -> A) : A :=
  match fin with
  | [] => at_end
  | slot :: rest => with_slot slot rest
  end.

(** What [fopen] answers for a file name. *)
Record file_system : Type := mk_file_system {
  open_rb : string -> option (list (list Z));
  open_wb : string -> option FILE_out
}.

(** ** Messages on the standard output *)

Inductive message : Type :=
| usage
| cant_open_input
| cant_open_output
| illegal_CoderType
| end_of_input
| cant_write
| was_stolen (n : Z)
| bfi_active (n : Z)
| frames_processed (n : Z)
| speech_frames (n : Z).

Definition nl : string := String (ascii_of_nat 10) EmptyString.

(** [%ld] *)
Definition ld (n : Z) : string := NilEmpty.string_of_int (Z.to_int n).

(** The characters a message puts on the standard output. *)
Definition text (m : message) : string :=
  match m with
  | usage =>
      "usage : cdecoder input_file output_file [CoderType [S]]" ++ nl ++
      "format for input_file  : $6B21...114 bits" ++ nl ++
      "       ...$6B22...114..." ++ nl ++
      "       ...$6B26...114...$6B21" ++ nl ++
      "format for output_file : two 138 (BFI + 137) bit frames" ++ nl ++
      "CoderType = 0 - TETRA (default)" ++ nl ++
      "            1 - AMR475 " ++ nl ++
      "S = Stealing at 10% of TDMA Frames " ++ nl
  | cant_open_input => "cdecoder: can't open input_file" ++ nl
  | cant_open_output => "cdecoder: can't open output_file" ++ nl
  | illegal_CoderType => "chanlcod: Illegal value of CoderType" ++ nl
  | end_of_input => "cdecoder: reached end of input_file" ++ nl
  | cant_write => "cdecoder: can't write to output_file" ++ nl
  | was_stolen n => "Frame Nb " ++ ld n ++ " was stolen" ++ nl
  | bfi_active n => "Frame Nb " ++ ld n ++ " Bfi active" ++ nl ++ nl
  | frames_processed n => ld n ++ " Channel Frames processed" ++ nl
  | speech_frames n => "ie " ++ ld n ++ " Speech Frames" ++ nl
  end%string.

(** ** cdecoder.c *)

(** The globals [main] fixes before its loop. *)
Record globals : Type := mk_globals {
  CoderType : Z;
  FRAME_STEALING : Z;
  P : params
}.

(** [Word16 Zeros[250]], cleared by the first loop of [main]. *)
Definition Zeros : list Z := repeat 0 250.

(** The locals of [main] that it declares without a value: they hold whatever
    the stack holds. *)
Record uninitialised : Type := mk_uninitialised {
  stack_mode : Z;
  stack_Reordered_array : list Z;
  stack_Interleaved_coded_array : list Z;
  stack_Coded_array : list Z
}.

(** [break] or go on. *)
Inductive flow : Type := Continue | Break.

Section Decoder.

(** The routines of the decoder proper, declared in [channel.h] and defined
    outside the files at hand.  [Channel_Decoding] reads the parameter set
    and owns the trellis (its static state), takes [first_pass],
    [Frame_stealing] and [Coded_array], fills [Reordered_array] and returns
    the bad frame indicator; [trellis0] is its static state when the
    program starts.  The deinterleavers return the array they fill. *)
Variable decoder_state : Type.
Variable trellis0 : decoder_state.
Variable Desinterleaving_Speech : list Z -> list Z.
Variable Desinterleaving_Signalling : list Z -> list Z.
Variable Channel_Decoding :
  params -> decoder_state -> Z -> Z -> list Z -> list Z ->
  Z * list Z * decoder_state.

Variables TETRA AMR475 : coder_tab.

(** The variables of [main] that change in the loop, the static state of
    the decoder, the output stream and the standard output. *)
Record state : Type := mk_state {
  Loop_counter : Z;
  first_pass : Z;
  bfi1 : Z;
  bfi2 : Z;
  bfi3 : Z;
  mode : Z;
  Reordered_array : list Z;
  Interleaved_coded_array : list Z;
  Coded_array : list Z;
  Frame_stealing : Z;
  trellis : decoder_state;
  fout : FILE_out;
  stdout : list message
}.

Definition set_Frame_stealing (v : Z) (s : state) : state :=
  mk_state (Loop_counter s) (first_pass s) (bfi1 s) (bfi2 s) (bfi3 s)
    (mode s) (Reordered_array s) (Interleaved_coded_array s)
    (Coded_array s) v (trellis s) (fout s) (stdout s).

Definition set_Interleaved_coded_array (v : list Z) (s : state) : state :=
  mk_state (Loop_counter s) (first_pass s) (bfi1 s) (bfi2 s) (bfi3 s)
    (mode s) (Reordered_array s) v
    (Coded_array s) (Frame_stealing s) (trellis s) (fout s) (stdout s).

Definition set_bfi3 (v : Z) (s : state) : state :=
  mk_state (Loop_counter s) (first_pass s) (bfi1 s) (bfi2 s) v
    (mode s) (Reordered_array s) (Interleaved_coded_array s)
    (Coded_array s) (Frame_stealing s) (trellis s) (fout s) (stdout s).

Definition set_mode (v : Z) (s : state) : state :=
  mk_state (Loop_counter s) (first_pass s) (bfi1 s) (bfi2 s) (bfi3 s)
    v (Reordered_array s) (Interleaved_coded_array s)
    (Coded_array s) (Frame_stealing s) (trellis s) (fout s) (stdout s).

Definition set_fout (v : FILE_out) (s : state) : state :=
  mk_state (Loop_counter s) (first_pass s) (bfi1 s) (bfi2 s) (bfi3 s)
    (mode s) (Reordered_array s) (Interleaved_coded_array s)
    (Coded_array s) (Frame_stealing s) (trellis s) v (stdout s).

(** [puts] and [printf]. *)
Definition print (m : message) (s : state) : state :=
  mk_state (Loop_counter s) (first_pass s) (bfi1 s) (bfi2 s) (bfi3 s)
    (mode s) (Reordered_array s) (Interleaved_coded_array s)
    (Coded_array s) (Frame_stealing s) (trellis s) (fout s)
    (stdout s ++ [m]).

(** *** Statements of the writing part *)

Definition step : Type := state -> state * flow.

Definition then_ (a b : step) : step :=
  fun s => match a s with
           | (s', Continue) => b s'
           | (s', Break) => (s', Break)
           end.

Notation "a ;; b" := (then_ a b) (at level 61, right associativity).

Definition assign (f : state -> state) : step := fun s => (f s, Continue).

(** [if( fwrite( ptr, sizeof(short), n, fout ) != n )
      { puts( "cdecoder: can't write to output_file" ); break; }] *)
Definition fwrite_or_break (ptr : state -> list Z) (n : Z) : step :=
  fun s =>
    let (r, f) := fwrite (ptr s) n (fout s) in
    if negb (r =? n)
    then (print cant_write (set_fout f s), Break)
    else (set_fout f s, Continue).

(** [fwrite( ptr, sizeof(short), n, fout );] *)
Definition fwrite_ (ptr : state -> list Z) (n : Z) : step :=
  fun s => (set_fout (snd (fwrite (ptr s) n (fout s))) s, Continue).

(** [if (b) bfi3 = 3; else bfi3 = 0;] *)
Definition bfi3_of (b : state -> Z) : step :=
  assign (fun s => set_bfi3 (if b s =? 0 then 0 else 3) s).

(** The TETRA branch of the writing part. *)
Definition write_TETRA : step :=
  fwrite_or_break (fun s => [bfi1 s]) 1 ;;
  fwrite_or_break (fun s => Reordered_array s) 137 ;;
  fwrite_or_break (fun s => [bfi2 s]) 1 ;;
  fwrite_or_break (fun s => skipn 137 (Reordered_array s)) 137.

(** The AMR branch of the writing part; [Lvf] is [Length_vocoder_frame]. *)
Definition write_AMR (g : globals) : step :=
  let Lvf := Length_vocoder_frame (P g) in
  assign (set_mode (Word16 (CoderType g - 1))) ;;
  bfi3_of bfi1 ;;
  fwrite_or_break (fun s => [bfi3 s]) 1 ;;
  fwrite_or_break (fun s => Reordered_array s) Lvf ;;
  fwrite_ (fun _ => Zeros) (244 - Lvf) ;;
  fwrite_ (fun s => [mode s]) 1 ;;
  fwrite_ (fun _ => Zeros) 4 ;;
  bfi3_of bfi1 ;;
  fwrite_or_break (fun s => [bfi3 s]) 1 ;;
  fwrite_or_break
    (fun s => skipn (Z.to_nat Lvf) (Reordered_array s)) Lvf ;;
  fwrite_ (fun _ => Zeros) (244 - Lvf) ;;
  fwrite_ (fun s => [mode s]) 1 ;;
  fwrite_ (fun _ => Zeros) 4 ;;
  bfi3_of bfi2 ;;
  fwrite_or_break (fun s => [bfi3 s]) 1 ;;
  fwrite_or_break
    (fun s => skipn (Z.to_nat (2 * Lvf)) (Reordered_array s)) Lvf ;;
  fwrite_ (fun _ => Zeros) (244 - Lvf) ;;
  fwrite_ (fun s => [mode s]) 1 ;;
  fwrite_ (fun _ => Zeros) 4.

Definition write_slot (g : globals) : step :=
  if CoderType g =? 0 then write_TETRA else write_AMR g.

(** *** The decoding part of the loop body *)

(** [if (Frame_stealing) { Desinterleaving_Signalling(
       Interleaved_coded_array + 216, Coded_array + 216);
       for (i = 0; i < 216; i++) Coded_array[i] = Interleaved_coded_array[i]; }
    else Desinterleaving_Speech(Interleaved_coded_array, Coded_array);] *)
Definition deinterleave (stealing : Z) (interleaved : list Z) : list Z :=
  if stealing =? 0
  then Desinterleaving_Speech interleaved
  else firstn 216 interleaved
       ++ Desinterleaving_Signalling (skipn 216 interleaved).

(** The call [Channel_Decoding(first_pass, Frame_stealing, Coded_array,
    Reordered_array)] for the slot held by [s]. *)
Definition decoded (g : globals) (s : state) : Z * list Z * decoder_state :=
  let coded := deinterleave (Frame_stealing s) (Interleaved_coded_array s) in
  Channel_Decoding (P g) (trellis s) (first_pass s) (Frame_stealing s)
    coded (Reordered_array s).

(** The value it returns, as it is stored in a [Word16]. *)
Definition decoded_bfi (g : globals) (s : state) : Z :=
  Word16 (fst (fst (decoded g s))).

(** From the deinterleaving to [Loop_counter++]. *)
Definition decode_slot (g : globals) (s : state) : state :=
  let stealing := Frame_stealing s in
  let coded := deinterleave stealing (Interleaved_coded_array s) in
  let nb := Word32 (Loop_counter s + 1) in
  let out := if stealing =? 0 then stdout s
             else stdout s ++ [was_stolen nb] in
  let '(r, reordered, trellis') :=
    Channel_Decoding (P g) (trellis s) (first_pass s) stealing
      coded (Reordered_array s) in
  let r := Word16 r in
  if CoderType g =? 0
  then
    (* bfi1 = Frame_stealing; bfi2 = Channel_Decoding(...);
       if ((Frame_stealing==0) && (bfi2==1)) bfi1=1;
       if (bfi2) printf(...); *)
    let b1 := stealing in
    let b2 := r in
    let b1 := if (stealing =? 0) && (b2 =? 1) then 1 else b1 in
    let out := if b2 =? 0 then out else out ++ [bfi_active nb] in
    mk_state nb 0 b1 b2 (bfi3 s) (mode s) reordered
      (Interleaved_coded_array s) coded stealing trellis' (fout s) out
  else
    (* bfi2 = Frame_stealing; bfi1 = Channel_Decoding(...);
       if ((Frame_stealing==0) && (bfi1==1)) bfi2=1;
       if (bfi1) printf(...); *)
    let b2 := stealing in
    let b1 := r in
    let b2 := if (stealing =? 0) && (b1 =? 1) then 1 else b2 in
    let out := if b1 =? 0 then out else out ++ [bfi_active nb] in
    mk_state nb 0 b1 b2 (bfi3 s) (mode s) reordered
      (Interleaved_coded_array s) coded stealing trellis' (fout s) out.

(** The loop body once a slot has been read. *)
Definition process_slot (g : globals) (slot : list Z) (s : state)
  : state * flow :=
  write_slot g (decode_slot g (set_Interleaved_coded_array slot s)).

(** [if (FRAME_STEALING) Frame_stealing = ((Loop_counter%10) == 2);] *)
Definition schedule (g : globals) (s : state) : state :=
  if FRAME_STEALING g =? 0 then s
  else set_Frame_stealing
         (if Z.rem (Loop_counter s) 10 =? 2 then 1 else 0) s.

(** [while( 1 ) { ... }]: every pass reads a slot or leaves the loop. *)
Fixpoint main_loop (g : globals) (fin : list (list Z)) (s : state)
  {struct fin} : state :=
  let s := schedule g s in
  Read_Tetra_File fin
    (print end_of_input s)
    (fun slot rest =>
       match process_slot g slot s with
       | (s', Break) => s'
       | (s', Continue) => main_loop g rest s'
       end).

(** The state in which the pass of index [k] (from 0) reads its slot, after
    the stealing schedule has been applied, when the loop gets that far. *)
Fixpoint pass (g : globals) (fin : list (list Z)) (s : state) (k : nat)
  {struct fin} : option (list Z * state) :=
  let s := schedule g s in
  Read_Tetra_File fin
    None
    (fun slot rest =>
       match k with
       | O => Some (slot, s)
       | S k' =>
           match process_slot g slot s with
           | (s', Break) => None
           | (s', Continue) => pass g rest s' k'
           end
       end).

(** How [main] ends: [exit( 1 )] before the loop, or the [return] after
    it with the final state. *)
Inductive result : Type :=
| Exit (status : Z) (out : list message)
| Return (status : Z) (final : state).

(** The values of the locals when the loop is entered. *)
Definition initial_state (u : uninitialised) (f : FILE_out) : state :=
  mk_state 0 1 0 0 0 (stack_mode u) (stack_Reordered_array u)
    (stack_Interleaved_coded_array u) (stack_Coded_array u)
    0 (* Frame_stealing *) trellis0 f [].

(** The arguments after the file names: [CoderType] and the stealing
    switch.  [None] is the illegal [CoderType]. *)
Definition command_line (argv : list string) : option globals :=
  let argc := Z.of_nat (length argv) in
  if argc >=? 4
  then
    let coder := atoi (arg argv 3) in
    if (coder <? 0) || (coder >? 1) then None
    else
      let stealing :=
        if (argc >? 4) && Ascii.eqb (first_char (arg argv 4)) "S"
        then 1 else 0 in
      Some (mk_globals coder stealing (init_params TETRA AMR475 coder))
  else Some (mk_globals 0 0 (init_params TETRA AMR475 0)).

Definition main (argv : list string) (fs : file_system) (u : uninitialised)
  : result :=
  let argc := Z.of_nat (length argv) in
  if (argc <? 3) || (argc >? 5) then Exit 1 [usage]
  else
    match open_rb fs (arg argv 1) with
    | None => Exit 1 [cant_open_input]
    | Some fin =>
        match open_wb fs (arg argv 2) with
        | None => Exit 1 [cant_open_output]
        | Some f =>
            match command_line argv with
            | None => Exit 1 [illegal_CoderType]
            | Some g =>
                let s := main_loop g fin (initial_state u f) in
                let s := print (frames_processed (Loop_counter s)) s in
                let s :=
                  print (speech_frames
                           (Word32 (SpFrms_per_TDMFrm (P g)
                                    * Loop_counter s))) s in
                Return 0 (* EXIT_SUCCESS *) s
            end
        end
    end.

End Decoder.

Arguments Loop_counter {decoder_state} _.
Arguments first_pass {decoder_state} _.
Arguments bfi1 {decoder_state} _.
Arguments bfi2 {decoder_state} _.
Arguments bfi3 {decoder_state} _.
Arguments mode {decoder_state} _.
Arguments Reordered_array {decoder_state} _.
Arguments Interleaved_coded_array {decoder_state} _.
Arguments Coded_array {decoder_state} _.
Arguments Frame_stealing {decoder_state} _.
Arguments trellis {decoder_state} _.
Arguments fout {decoder_state} _.
Arguments stdout {decoder_state} _.
Arguments Exit {decoder_state} _ _.
Arguments Return {decoder_state} _ _.
Arguments set_Frame_stealing {decoder_state} _ _.
Arguments set_Interleaved_coded_array {decoder_state} _ _.
Arguments set_bfi3 {decoder_state} _ _.
Arguments set_mode {decoder_state} _ _.
Arguments set_fout {decoder_state} _ _.
Arguments print {decoder_state} _ _.
Arguments then_ {decoder_state} _ _ _.
Arguments assign {decoder_state} _ _.
Arguments fwrite_or_break {decoder_state} _ _ _.
Arguments fwrite_ {decoder_state} _ _ _.
Arguments bfi3_of {decoder_state} _ _.
Arguments write_TETRA {decoder_state} _.
Arguments write_AMR {decoder_state} _ _.
Arguments write_slot {decoder_state} _ _.
Arguments schedule {decoder_state} _ _.
Arguments initial_state {decoder_state} _ _ _.

(** ** The tables and the output format, in the words of the specification *)

(** The [ALLOW_NEG] encoding as a tagged pair of an index and a flip flag:
    [i >= 0 -> (i, flip=false); i < 0, odd(-i) -> (-i)/2 - N1_2 + 1, flip;
    even(-i) -> i/2 + 1, flip], with [i/2] truncating towards zero. *)
Definition ALLOW_NEG_pair (N1_2 : Z) (i : Z) : Z * bool :=
  if 0 <=? i then (i, false)
  else if Z.odd (- i) then ((- i) / 2 - N1_2 + 1, true)
       else (Z.quot i 2 + 1, true).

(** [bfi3], the header word of an AMR475 speech frame: 3 for a bad frame, 0
    for a good one. *)
Definition bfi3_word (bfi : Z) : Z := if bfi =? 0 then 0 else 3.

(** [<bfi3:16> <frame[Lvf]:16> <zeros[244-Lvf]:16> <mode:16> <zeros[4]:16>] *)
Definition AMR_record (Lvf : Z) (header : Z) (frame : list Z) (mode : Z)
  : list Z :=
  header :: frame ++ repeat 0 (Z.to_nat (244 - Lvf)) ++ mode :: repeat 0 4.

(** [<bfi1:16> <frame1[137]:16> <bfi2:16> <frame2[137]:16>] *)
Definition TETRA_record (bfi1 : Z) (frame1 : list Z) (bfi2 : Z)
  (frame2 : list Z) : list Z :=
  bfi1 :: frame1 ++ bfi2 :: frame2.

(** The size of the output file in bytes; [sizeof(short)] is 2. *)
Definition file_bytes (f : FILE_out) : nat := 2 * length (written f).

(** The device accepts the next [k] calls of [fwrite] in full. *)
Definition no_fault (k : nat) (f : FILE_out) : Prop :=
  Forall (fun q => q = @None nat) (firstn k (faults f)).

(** What an observer of a run sees: the exit status, the standard output and
    the words of the output file. *)
Definition observable {decoder_state : Type} (r : result decoder_state)
  : Z * list message * list Z :=
  match r with
  | Exit status out => (status, out, [])
  | Return status s => (status, stdout s, written (fout s))
  end.

(** What the writing part leaves alone, and the little it does to the two
    streams: it appends words to the file and, when it breaks, one message to
    the standard output. *)
Definition writes_only {decoder_state : Type}
  (s : state decoder_state) (r : state decoder_state * flow) : Prop :=
  let s' := fst r in
  Loop_counter s' = Loop_counter s /\
  first_pass s' = first_pass s /\
  bfi1 s' = bfi1 s /\
  bfi2 s' = bfi2 s /\
  Reordered_array s' = Reordered_array s /\
  Frame_stealing s' = Frame_stealing s /\
  trellis s' = trellis s /\
  (exists items, written (fout s') = written (fout s) ++ items) /\
  stdout s' = stdout s ++ match snd r with
                          | Continue => []
                          | Break => [cant_write]
                          end.

(** The state after a call of [fwrite] that wrote [items]. *)
Definition emit {decoder_state : Type} (items : list Z)
  (s : state decoder_state) : state decoder_state :=
  set_fout {| written := written (fout s) ++ items;
              faults := tl (faults (fout s)) |} s.

(** The state after calls of [fwrite] that wrote [items] in [n] calls. *)
Definition wrote {decoder_state : Type} (items : list Z) (n : nat)
  (s : state decoder_state) : state decoder_state :=
  set_fout {| written := written (fout s) ++ items;
              faults := skipn n (faults (fout s)) |} s.

(** The stealing switch of the command line: a fifth argument that begins
    with the letter S. *)
Definition stealing_requested (argv : list string) : bool :=
  (4 <? Z.of_nat (length argv)) && Ascii.eqb (first_char (arg argv 4)) "S".

(** *** Two runs side by side *)

(** The number of words of [Reordered_array] a slot sends to the output. *)
Definition emitted (g : globals) : nat :=
  if CoderType g =? 0 then 274 else 3 * Z.to_nat (Length_vocoder_frame (P g)).

(** What is asked of [Channel_Decoding] for two runs to agree: its result and
    its static state do not depend on what [Reordered_array] held; it fills
    the [n] words that are sent to the output when the slot is not stolen,
    and on a stolen slot leaves there nothing but what it is given or
    computes. *)
Definition fills_frames {decoder_state : Type}
  (Channel_Decoding :
     params -> decoder_state -> Z -> Z -> list Z -> list Z ->
     Z * list Z * decoder_state)
  (p : params) (n : nat) : Prop :=
  forall d first stealing coded R1 R2,
    let r1 := Channel_Decoding p d first stealing coded R1 in
    let r2 := Channel_Decoding p d first stealing coded R2 in
    fst (fst r1) = fst (fst r2) /\
    snd r1 = snd r2 /\
    (stealing = 0 \/ firstn n R1 = firstn n R2 ->
     firstn n (snd (fst r1)) = firstn n (snd (fst r2))).

(** Two states that differ at most in the arrays and in [mode]. *)
Definition same_run {decoder_state : Type} (s1 s2 : state decoder_state)
  : Prop :=
  Loop_counter s1 = Loop_counter s2 /\
  first_pass s1 = first_pass s2 /\
  bfi1 s1 = bfi1 s2 /\
  bfi2 s1 = bfi2 s2 /\
  bfi3 s1 = bfi3 s2 /\
  Frame_stealing s1 = Frame_stealing s2 /\
  trellis s1 = trellis s2 /\
  fout s1 = fout s2 /\
  stdout s1 = stdout s2.

(** ... and that agree on the first [n] words of [Reordered_array], and on
    [mode] when [with_mode] is set. *)
Definition alike {decoder_state : Type} (n : nat) (with_mode : bool)
  (s1 s2 : state decoder_state) : Prop :=
  same_run s1 s2 /\
  firstn n (Reordered_array s1) = firstn n (Reordered_array s2) /\
  (with_mode = true -> mode s1 = mode s2).

(** A statement that takes alike states to alike states, the same way; a
    statement that breaks need not have set [mode]. *)
Definition sim {decoder_state : Type} (n : nat) (before after : bool)
  (a : step decoder_state) : Prop :=
  forall s1 s2,
    alike n before s1 s2 ->
    snd (a s1) = snd (a s2) /\
    alike n (match snd (a s1) with Continue => after | Break => false end)
      (fst (a s1)) (fst (a s2)).

(** ** Sample runs *)

Module Sample.

(** A parameter set with the frame lengths of the two coders: 137 bits for
    TETRA and 95 bits for AMR 4.75. *)
Definition TETRA : coder_tab := mk_coder_tab 30 137 [3] [[1; -5; -4]] [] [].
Definition AMR475 : coder_tab := mk_coder_tab 30 95 [] [] [] [].

(** A decoder for clean input: it writes [n] one bits and reports the
    result [bfi]. *)
Definition Channel_Decoding (n : nat) (bfi : Z) (p : params) (d : unit)
  (first_pass stealing : Z) (coded reordered : list Z)
  : Z * list Z * unit :=
  (bfi, repeat 1 n ++ skipn n reordered, d).

Definition Desinterleaving (a : list Z) : list Z := a.

Definition slot : list Z := repeat 127 432.

(** A file system holding an input file of [n] slots and an output device
    with the given faults. *)
Definition files (n : nat) (q : list (option nat)) : file_system :=
  mk_file_system (fun _ => Some (repeat slot n))
                 (fun _ => Some (mk_FILE_out [] q)).

Definition stack : uninitialised :=
  mk_uninitialised 7 (repeat 9 686) (repeat 5 432) (repeat 6 432).

(** The program with these routines. *)
Abbreviation main bfi :=
  (main unit tt Desinterleaving Desinterleaving (Channel_Decoding 286 bfi)
     TETRA AMR475).

Abbreviation decode_slot bfi :=
  (decode_slot unit Desinterleaving Desinterleaving
     (Channel_Decoding 286 bfi)).

Abbreviation process_slot bfi :=
  (process_slot unit Desinterleaving Desinterleaving
     (Channel_Decoding 286 bfi)).

Abbreviation pass bfi :=
  (pass unit Desinterleaving Desinterleaving (Channel_Decoding 286 bfi)).

(** Command lines. *)
Definition cdecoder (args : list string) : list string :=
  "cdecoder"%string :: "in"%string :: "out"%string :: args.

Definition g_TETRA : globals := mk_globals 0 0 (init_params TETRA AMR475 0).
Definition g_AMR475 : globals := mk_globals 1 0 (init_params TETRA AMR475 1).
Definition g_TETRA_S : globals :=
  mk_globals 0 1 (init_params TETRA AMR475 0).

(** The state before the first pass, and the same with the stealing flag
    set. *)
Abbreviation start := (initial_state tt stack (mk_FILE_out [] [])).
Definition stolen : state unit := set_Frame_stealing 1 start.

(** The state in which the third pass (index 2) of a run with stealing
    simulated reads its slot, for a decoder that returns 0 and for one that
    returns 1. *)
Definition third_good : state unit :=
  Eval vm_compute in
    match pass 0 g_TETRA_S (repeat slot 3) start 2 with
    | Some (_, s) => s
    | None => start
    end.

Definition third_bad : state unit :=
  Eval vm_compute in
    match pass 1 g_TETRA_S (repeat slot 3) start 2 with
    | Some (_, s) => s
    | None => start
    end.

(** Another content of the stack. *)
Definition stack' : uninitialised :=
  mk_uninitialised (-1) (repeat 4 686) [] [8].

End Sample.

(** ** The rest of init_params.c: the copy loops *)

(** [a[i] = v;] an index past the end of the array is left without effect
    (the C behaviour is undefined there). *)
Fixpoint store (i : nat) (v : Z) (a : list Z) : list Z :=
  match a, i with
  | [], _ => []
  | _ :: a', O => v :: a'
  | x :: a', S i' => x :: store i' v a'
  end.

(** [for (i=0; i<n; i++) dst[i] = f(src[i]);] the loop that fills [TAB0],
    [TAB1], [TAB2], [A1], [A2] and their [Fs_] variants with [f] the
    identity, and the CRC tables with [f] the macro [ALLOW_NEG] stored in a
    [Word16].  [dst] is the global array as the loop finds it. *)
Definition copy_loop (f : Z -> Z) (n : Z) (src dst : list Z) : list Z :=
  fold_left (fun a i => store i (f (nth i src 0)) a)
            (seq 0 (Z.to_nat n)) dst.

(** The body of the two loops over the fixed bits, with the running [j]:
    [for (...; i<n; i++,j++) { Fs_Fixed_Bit_TAB[k][i] = ..._AMR475[k][i];
                               Fs_Fixed_Bit_List[j] = ..._AMR475[j]; }] *)
Definition fixed_bits_loop (n : Z) (src_row src_list : list Z)
  (st : list Z * list Z * nat) : list Z * list Z * nat :=
  fold_left (fun st i =>
               let '(row, lst, j) := st in
               (store i (nth i src_row 0) row,
                store j (nth j src_list 0) lst,
                S j))
            (seq 0 (Z.to_nat n)) st.

(** [for (i=j=0; i<Fs_Fixed_Bits[0]; i++,j++) {...}
     for (i=0; i<Fs_Fixed_Bits[1]; i++,j++) {...}]: the two rows of
    [Fs_Fixed_Bit_TAB] and [Fs_Fixed_Bit_List] after the loops. *)
Definition load_fixed_bits (F0 F1 : Z) (src0 src1 src_list : list Z)
  (row0 row1 lst : list Z) : list Z * list Z * list Z :=
  let '(r0, l, j) := fixed_bits_loop F0 src0 src_list (row0, lst, O) in
  let '(r1, l, _) := fixed_bits_loop F1 src1 src_list (row1, l, j) in
  (r0, r1, l).

(** ** Further notions for the driver *)

(** After white space and an optional sign, [s] goes on with a decimal
    digit: [atoi] has a number to read. *)
Definition starts_number (s : string) : bool :=
  match skip_spaces s with
  | String c r =>
      if Ascii.eqb c "-" || Ascii.eqb c "+"
      then match digit_value (first_char r) with
           | Some _ => true
           | None => false
           end
      else match digit_value c with
           | Some _ => true
           | None => false
           end
  | EmptyString => false
  end.

(** A device on which no [fwrite] ever falls short. *)
Definition never_fails (f : FILE_out) : Prop :=
  Forall (fun q => q = @None nat) (faults f).

(** [l1] is the beginning of [l2]. *)
Definition begins {A : Type} (l1 l2 : list A) : Prop :=
  exists rest, l2 = l1 ++ rest.

(** The messages the decoding of a slot prints. *)
Definition slot_message (m : message) : bool :=
  match m with
  | was_stolen _ | bfi_active _ => true
  | _ => false
  end.

(** [Reordered_array], as [Channel_Decoding] leaves it, holds [n] words at
    least. *)
Definition keeps_room {decoder_state : Type}
  (Channel_Decoding :
     params -> decoder_state -> Z -> Z -> list Z -> list Z ->
     Z * list Z * decoder_state)
  (p : params) (n : nat) : Prop :=
  forall d first stealing coded R,
    (n <= length (snd (fst (Channel_Decoding p d first stealing coded R))))%nat.

(** The exit status of a run. *)
Definition status_of {decoder_state : Type} (r : result decoder_state) : Z :=
  match r with
  | Exit status _ => status
  | Return status _ => status
  end.

(** *** Which writes can end the loop *)

(** The device lets a call that asks for [n] items fall short. *)
Definition short (q : option nat) (n : Z) : bool :=
  match q with
  | Some k => Z.of_nat k <? n
  | None => false
  end.

(** The calls of [fwrite] of a TETRA pass are all checked: the calls 0 to 3
    of the pass, of 1, 137, 1 and 137 items. *)
Definition TETRA_breaks (q : list (option nat)) : bool :=
  short (nth 0 q None) 1 || short (nth 1 q None) 137
  || short (nth 2 q None) 1 || short (nth 3 q None) 137.

(** Of the fifteen calls of an AMR pass the checked ones are the calls 0, 1,
    5, 6, 10 and 11: the header and the frame of each speech frame. *)
Definition AMR_breaks (Lvf : Z) (q : list (option nat)) : bool :=
  short (nth 0 q None) 1 || short (nth 1 q None) Lvf
  || short (nth 5 q None) 1 || short (nth 6 q None) Lvf
  || short (nth 10 q None) 1 || short (nth 11 q None) Lvf.

(** A statement of the writing part that, with [Reordered_array] holding
    [R], breaks exactly when [b] holds of the faults to come, and else goes
    on after [k] calls of [fwrite]. *)
Definition checks {decoder_state : Type} (a : step decoder_state) (k : nat)
  (b : list (option nat) -> bool) (R : list Z) : Prop :=
  forall s,
    Reordered_array s = R ->
    snd (a s) = (if b (faults (fout s)) then Break else Continue) /\
    (b (faults (fout s)) = false ->
     faults (fout (fst (a s))) = skipn k (faults (fout s)) /\
     Reordered_array (fst (a s)) = R).

(** * Properties *)

(** ** Machine integers *)

Lemma signed_small w z : 0 < w -> Word.in_range w z -> Word.signed w z = z.
Proof.
  unfold Word.signed, Word.in_range. intros Hw Hz.
  assert (E : 2 ^ w = 2 * 2 ^ (w - 1)).
  { replace w with (Z.succ (w - 1)) at 1 by lia. apply Z.pow_succ_r. lia. }
  rewrite Z.mod_small; lia.
Qed.

Lemma signed_range w z : 0 < w -> Word.in_range w (Word.signed w z).
Proof.
  unfold Word.signed, Word.in_range. intros Hw.
  assert (E : 2 ^ w = 2 * 2 ^ (w - 1)).
  { replace w with (Z.succ (w - 1)) at 1 by lia. apply Z.pow_succ_r. lia. }
  assert (0 < 2 ^ (w - 1)) by (apply Z.pow_pos_nonneg; lia).
  pose proof (Z.mod_pos_bound (z + 2 ^ (w - 1)) (2 ^ w)). lia.
Qed.


Lemma Word32_small z : -2147483648 <= z < 2147483648 -> Word32 z = z.
Proof. intros H. apply signed_small; [lia | exact H]. Qed.

(** ** The parameter set *)

(** On a negative entry the C remainder of [-x] by 2 is the parity of [-x],
    and the C quotient of [-x] by 2 is the mathematical one. *)
Lemma rem_neg_parity x : x < 0 -> (Z.rem (- x) 2 =? 1) = Z.odd (- x).
Proof.
  intros Hx. rewrite Z.rem_mod_nonneg by lia.
  rewrite Zmod_odd. destruct (Z.odd (- x)); reflexivity.
Qed.

(** C7.  The mapping [ALLOW_NEG] applies to a table entry [x] when the
    parameter set is built: an entry that is not negative is kept; a negative
    entry with [-x] odd becomes [(-x)/2 - N1_2 + 1]; a negative entry with
    [-x] even becomes [x/2 + 1], the division truncating towards zero.  The
    macro yields the index of the tagged pair; the flip flag of the pair is
    set exactly for the negative entries. *)
Theorem ALLOW_NEG_mapping (n1_2 x : Z) :
  (0 <= x -> ALLOW_NEG n1_2 x = x) /\
  (x < 0 -> Z.odd (- x) = true ->
   ALLOW_NEG n1_2 x = (- x) / 2 - n1_2 + 1) /\
  (x < 0 -> Z.even (- x) = true ->
   ALLOW_NEG n1_2 x = Z.quot x 2 + 1 /\ Z.quot x 2 = - ((- x) / 2)) /\
  ALLOW_NEG n1_2 x = fst (ALLOW_NEG_pair n1_2 x) /\
  (snd (ALLOW_NEG_pair n1_2 x) = true <-> x < 0).
Proof.
  assert (Hq : x < 0 -> Z.quot x 2 = - ((- x) / 2)).
  { intros Hx. replace x with (- (- x)) at 1 by lia.
    rewrite Z.quot_opp_l by lia.
    rewrite Z.quot_div_nonneg by lia. reflexivity. }
  unfold ALLOW_NEG, ALLOW_NEG_pair. split; [| split; [| split; [| split]]].
  - intros Hx. destruct (Z.ltb_spec x 0); [lia | reflexivity].
  - intros Hx Hodd. destruct (Z.ltb_spec x 0); [| lia].
    rewrite rem_neg_parity, Hodd by assumption.
    rewrite Z.quot_div_nonneg by lia. reflexivity.
  - intros Hx Heven. destruct (Z.ltb_spec x 0); [| lia]. split.
    + rewrite rem_neg_parity by assumption.
      rewrite <- Z.negb_even, Heven. reflexivity.
    + apply Hq. exact Hx.
  - destruct (Z.ltb_spec x 0) as [Hx | Hx], (Z.leb_spec 0 x); try lia.
    + rewrite rem_neg_parity by assumption.
      destruct (Z.odd (- x)); cbn [fst].
      * rewrite Z.quot_div_nonneg by lia. reflexivity.
      * reflexivity.
    + reflexivity.
  - destruct (Z.leb_spec 0 x); [cbn [snd]; split; [discriminate | lia] |].
    destruct (Z.odd (- x)); cbn [snd]; split; auto.
Qed.

Lemma ALLOW_NEG_mapping_witness :
  ALLOW_NEG 30 7 = 7 /\ ALLOW_NEG 30 (-5) = -27 /\ ALLOW_NEG 30 (-4) = -1.
Proof.
  destruct (ALLOW_NEG_mapping 30 7) as [H1 _].
  destruct (ALLOW_NEG_mapping 30 (-5)) as [_ [H2 _]].
  destruct (ALLOW_NEG_mapping 30 (-4)) as [_ [_ [H3 _]]].
  split; [apply H1; lia | split].
  - rewrite H2; [reflexivity | lia | reflexivity].
  - destruct H3 as [H3 _]; [lia | reflexivity |]. rewrite H3. reflexivity.
Defined.

(** Every entry of a loaded CRC table is the image of the entry of the
    coder's table under [ALLOW_NEG], stored in a [Word16]. *)
Lemma load_TAB_CRC_nth n1_2 size tab i :
  (i < Z.to_nat size)%nat -> (i < length tab)%nat ->
  nth i (load_TAB_CRC n1_2 size tab) 0 = Word16 (ALLOW_NEG n1_2 (nth i tab 0)).
Proof.
  intros Hi Ht. unfold load_TAB_CRC.
  rewrite (nth_indep _ 0 (Word16 (ALLOW_NEG n1_2 0))).
  - rewrite (map_nth (fun x => Word16 (ALLOW_NEG n1_2 x))).
    rewrite nth_firstn.
    destruct (Nat.ltb_spec i (Z.to_nat size)); [reflexivity | lia].
  - rewrite length_map, length_firstn. lia.
Qed.

(** ** The output stream *)

Lemma fwrite_written ptr n f :
  exists items,
    written (snd (fwrite ptr n f)) = written f ++ items /\
    fst (fwrite ptr n f) = Z.of_nat (length items) /\
    items = firstn (length items) ptr /\
    (length items <= Z.to_nat n)%nat.
Proof.
  unfold fwrite. cbn [fst snd written]. eexists. split; [reflexivity |].
  split; [reflexivity |]. split.
  - rewrite length_firstn, <- firstn_firstn, firstn_all. reflexivity.
  - rewrite length_firstn. destruct (faults f) as [| [q |] ?]; lia.
Qed.

(** A call that returns the number of items asked for has written them
    all. *)
Lemma fwrite_complete ptr n f :
  fst (fwrite ptr n f) = n ->
  written (snd (fwrite ptr n f)) = written f ++ firstn (Z.to_nat n) ptr /\
  length (firstn (Z.to_nat n) ptr) = Z.to_nat n.
Proof.
  intros H. destruct (fwrite_written ptr n f) as (items & Hw & Hr & Hi & _).
  rewrite H in Hr. subst n. rewrite Nat2Z.id, <- Hi. auto.
Qed.

(** A device without fault writes all the items the array holds. *)
Lemma fwrite_no_fault ptr n f k :
  no_fault (S k) f -> 0 <= n -> (Z.to_nat n <= length ptr)%nat ->
  fwrite ptr n f
  = (n, {| written := written f ++ firstn (Z.to_nat n) ptr;
           faults := tl (faults f) |})
  /\ no_fault k (snd (fwrite ptr n f)).
Proof.
  unfold no_fault, fwrite. intros Hf Hn Hl. cbn [snd faults].
  assert (E : match faults f with
              | Some q :: _ => Nat.min q (Z.to_nat n)
              | _ => Z.to_nat n
              end = Z.to_nat n).
  { destruct (faults f) as [| [q |] r]; try reflexivity.
    inversion Hf; discriminate. }
  rewrite E, length_firstn, Nat.min_l, Z2Nat.id by lia.
  split; [reflexivity |].
  destruct (faults f) as [| q r]; cbn [tl].
  - rewrite firstn_nil. constructor.
  - cbn [firstn] in Hf. inversion Hf; assumption.
Qed.

(** Only the first [nmemb] entries of the array matter to [fwrite]. *)
Lemma fwrite_prefix ptr1 ptr2 n f :
  firstn (Z.to_nat n) ptr1 = firstn (Z.to_nat n) ptr2 ->
  fwrite ptr1 n f = fwrite ptr2 n f.
Proof.
  intros H. unfold fwrite.
  set (room := match faults f with
               | Some q :: _ => Nat.min q (Z.to_nat n)
               | _ => Z.to_nat n
               end).
  assert (Hr : (room <= Z.to_nat n)%nat).
  { subst room. destruct (faults f) as [| [q |] ?]; lia. }
  assert (E : firstn room ptr1 = firstn room ptr2).
  { rewrite <- (Nat.min_l room (Z.to_nat n)) by exact Hr.
    rewrite <- !firstn_firstn, H. reflexivity. }
  rewrite E. reflexivity.
Qed.

(** ** The writing part *)

Section Writing.

Context {decoder_state : Type}.

Local Abbreviation state := (state decoder_state).
Local Abbreviation step := (step decoder_state).

Lemma then_Continue (a b : step) (s s1 : state) :
  a s = (s1, Continue) -> then_ a b s = b s1.
Proof. unfold then_. intros ->. reflexivity. Qed.

Lemma then_Break (a b : step) (s s1 : state) :
  a s = (s1, Break) -> then_ a b s = (s1, Break).
Proof. unfold then_. intros ->. reflexivity. Qed.

Lemma then_writes_only (a b : step) :
  (forall s, writes_only s (a s)) -> (forall s, writes_only s (b s)) ->
  forall s, writes_only s (then_ a b s).
Proof.
  intros Ha Hb s. specialize (Ha s). unfold then_.
  destruct (a s) as [s1 [|]]; [| exact Ha].
  specialize (Hb s1). unfold writes_only in *. cbn [fst snd] in *.
  destruct Ha as (A1 & A2 & A3 & A4 & A5 & A6 & A7 & [i1 A8] & A9).
  destruct Hb as (B1 & B2 & B3 & B4 & B5 & B6 & B7 & [i2 B8] & B9).
  rewrite app_nil_r in A9.
  repeat split; try congruence.
  exists (i1 ++ i2). rewrite B8, A8, app_assoc. reflexivity.
Qed.

Lemma fwrite_or_break_writes_only ptr n (s : state) :
  writes_only s (fwrite_or_break ptr n s).
Proof.
  unfold fwrite_or_break.
  destruct (fwrite_written (ptr s) n (fout s)) as (items & Hw & _).
  destruct (fwrite (ptr s) n (fout s)) as [r f]. cbn [snd] in Hw.
  destruct (negb (r =? n)); unfold writes_only; cbn;
    repeat split; eauto using app_nil_r.
Qed.

Lemma fwrite_writes_only ptr n (s : state) :
  writes_only s (fwrite_ ptr n s).
Proof.
  unfold fwrite_.
  destruct (fwrite_written (ptr s) n (fout s)) as (items & Hw & _).
  unfold writes_only; cbn; repeat split; eauto.
  symmetry. apply app_nil_r.
Qed.

Lemma bfi3_of_writes_only b (s : state) : writes_only s (bfi3_of b s).
Proof.
  unfold bfi3_of, assign, writes_only; cbn; repeat split.
  - exists []. symmetry. apply app_nil_r.
  - symmetry. apply app_nil_r.
Qed.

Lemma set_mode_writes_only v (s : state) :
  writes_only s (assign (set_mode v) s).
Proof.
  unfold assign, writes_only; cbn; repeat split.
  - exists []. symmetry. apply app_nil_r.
  - symmetry. apply app_nil_r.
Qed.

Lemma write_slot_writes_only g (s : state) : writes_only s (write_slot g s).
Proof.
  unfold write_slot. destruct (CoderType g =? 0).
  - unfold write_TETRA.
    repeat (apply then_writes_only; [intros; apply fwrite_or_break_writes_only |]).
    intros; apply fwrite_or_break_writes_only.
  - unfold write_AMR. revert s.
    repeat (apply then_writes_only;
            [intros;
             first [ apply fwrite_or_break_writes_only
                   | apply fwrite_writes_only
                   | apply bfi3_of_writes_only
                   | apply set_mode_writes_only ] |]).
    intros; apply fwrite_writes_only.
Qed.


Lemma then_inv (a b : step) (s s' : state) :
  then_ a b s = (s', Continue) ->
  exists s1, a s = (s1, Continue) /\ b s1 = (s', Continue).
Proof.
  unfold then_. destruct (a s) as [s1 [|]]; [eauto | discriminate].
Qed.

Lemma fwrite_or_break_inv ptr n (s s' : state) :
  fwrite_or_break ptr n s = (s', Continue) ->
  s' = emit (firstn (Z.to_nat n) (ptr s)) s /\
  length (firstn (Z.to_nat n) (ptr s)) = Z.to_nat n.
Proof.
  unfold fwrite_or_break, emit.
  pose proof (fwrite_complete (ptr s) n (fout s)) as Hc.
  destruct (fwrite (ptr s) n (fout s)) as [r f] eqn:E. cbn [fst snd] in Hc.
  destruct (Z.eqb_spec r n) as [-> |]; cbn [negb]; [| discriminate].
  intros [= <-]. destruct Hc as [Hw Hl]; [reflexivity |].
  split; [| exact Hl]. f_equal.
  unfold fwrite in E. injection E as _ <-. f_equal.
  cbn [written] in Hw. apply app_inv_head in Hw. rewrite Hw. reflexivity.
Qed.

Lemma then_assign f (b : step) (s : state) : then_ (assign f) b s = b (f s).
Proof. reflexivity. Qed.

Lemma then_bfi3_of v (b : step) (s : state) :
  then_ (bfi3_of v) b s = b (set_bfi3 (bfi3_word (v s)) s).
Proof. reflexivity. Qed.

Lemma fwrite_or_break_no_fault ptr n (s : state) k :
  no_fault (S k) (fout s) -> 0 <= n -> (Z.to_nat n <= length (ptr s))%nat ->
  fwrite_or_break ptr n s = (emit (firstn (Z.to_nat n) (ptr s)) s, Continue).
Proof.
  intros Hf Hn Hl. unfold fwrite_or_break, emit.
  destruct (fwrite_no_fault (ptr s) n (fout s) k Hf Hn Hl) as [-> _].
  rewrite Z.eqb_refl. reflexivity.
Qed.

Lemma fwrite_no_fault_ ptr n (s : state) k :
  no_fault (S k) (fout s) -> 0 <= n -> (Z.to_nat n <= length (ptr s))%nat ->
  fwrite_ ptr n s = (emit (firstn (Z.to_nat n) (ptr s)) s, Continue).
Proof.
  intros Hf Hn Hl. unfold fwrite_, emit.
  destruct (fwrite_no_fault (ptr s) n (fout s) k Hf Hn Hl) as [-> _].
  reflexivity.
Qed.

Lemma no_fault_emit items (s : state) k :
  no_fault (S k) (fout s) -> no_fault k (fout (emit items s)).
Proof.
  unfold no_fault, emit. cbn. destruct (faults (fout s)) as [| q r]; cbn.
  - rewrite firstn_nil. constructor.
  - intros H. inversion H; assumption.
Qed.

(** The words of a TETRA slot whose four writes all succeed. *)
Lemma write_TETRA_Continue (s s' : state) :
  write_TETRA s = (s', Continue) ->
  let frame1 := firstn 137 (Reordered_array s) in
  let frame2 := firstn 137 (skipn 137 (Reordered_array s)) in
  written (fout s')
  = written (fout s) ++ TETRA_record (bfi1 s) frame1 (bfi2 s) frame2
  /\ length frame1 = 137%nat /\ length frame2 = 137%nat.
Proof.
  unfold write_TETRA. intros H.
  apply then_inv in H as (s1 & H1 & H).
  apply then_inv in H as (s2 & H2 & H).
  apply then_inv in H as (s3 & H3 & H4).
  apply fwrite_or_break_inv in H1 as [-> _].
  apply fwrite_or_break_inv in H2 as [-> L1].
  apply fwrite_or_break_inv in H3 as [-> _].
  apply fwrite_or_break_inv in H4 as [-> L2].
  cbn in *. unfold TETRA_record.
  repeat rewrite <- app_assoc. cbn. auto.
Qed.


Lemma firstn_repeat (x : Z) n m :
  (n <= m)%nat -> firstn n (repeat x m) = repeat x n.
Proof.
  revert m. induction n as [| n IH]; intros [| m] H; cbn; try reflexivity.
  - lia.
  - rewrite IH by lia. reflexivity.
Qed.

Lemma firstn_Zeros n :
  0 <= n <= 250 -> firstn (Z.to_nat n) Zeros = repeat 0 (Z.to_nat n).
Proof. intros H. unfold Zeros. apply firstn_repeat. lia. Qed.

Lemma emit_wrote items (s : state) : emit items s = wrote items 1 s.
Proof. reflexivity. Qed.

Lemma wrote_wrote i1 n1 i2 n2 (s : state) :
  wrote i2 n2 (wrote i1 n1 s) = wrote (i1 ++ i2) (n1 + n2) s.
Proof.
  unfold wrote, set_fout. cbn.
  rewrite skipn_skipn, app_assoc, (Nat.add_comm n2 n1). reflexivity.
Qed.

Lemma no_fault_wrote items n (s : state) k :
  no_fault (n + k) (fout s) -> no_fault k (fout (wrote items n s)).
Proof.
  unfold no_fault, wrote. cbn. intros H.
  rewrite firstn_skipn_comm.
  rewrite <- (firstn_skipn n (firstn (n + k) (faults (fout s)))) in H.
  apply Forall_app in H. apply H.
Qed.

(** One speech frame of the AMR branch up to its [mode] word, on a device
    without fault. *)
Lemma write_AMR_frame_no_fault (b : state -> Z) (off : nat) (Lvf : Z)
  (rest : step) (s : state) (k : nat) :
  0 <= Lvf <= 244 ->
  (off + Z.to_nat Lvf <= length (Reordered_array s))%nat ->
  no_fault (4 + k) (fout s) ->
  then_ (bfi3_of b)
    (then_ (fwrite_or_break (fun s => [bfi3 s]) 1)
       (then_ (fwrite_or_break
                 (fun s => skipn off (Reordered_array s)) Lvf)
          (then_ (fwrite_ (fun _ => Zeros) (244 - Lvf))
             (then_ (fwrite_ (fun s => [mode s]) 1) rest)))) s
  = rest (wrote (bfi3_word (b s)
                 :: firstn (Z.to_nat Lvf) (skipn off (Reordered_array s))
                 ++ repeat 0 (Z.to_nat (244 - Lvf)) ++ [mode s]) 4
            (set_bfi3 (bfi3_word (b s)) s)).
Proof.
  intros HL HR Hf. rewrite then_bfi3_of.
  set (s0 := set_bfi3 (bfi3_word (b s)) s).
  assert (H0 : no_fault (4 + k) (fout s0)) by exact Hf.
  rewrite (then_Continue _ _ s0 _
             (fwrite_or_break_no_fault (fun s => [bfi3 s]) 1 s0 (3 + k) H0
                ltac:(lia) ltac:(cbn; lia))).
  rewrite emit_wrote. change (firstn (Z.to_nat 1) [bfi3 s0])
    with [bfi3_word (b s)].
  set (s1 := wrote _ 1 s0).
  assert (H1 : no_fault (3 + k) (fout s1))
    by (apply no_fault_wrote; exact H0).
  rewrite (then_Continue _ _ s1 _
             (fwrite_or_break_no_fault
                (fun s => skipn off (Reordered_array s)) Lvf s1 (2 + k) H1
                ltac:(lia) ltac:(cbn; rewrite length_skipn; lia))).
  rewrite emit_wrote. subst s1. rewrite wrote_wrote.
  change (Reordered_array (wrote [bfi3_word (b s)] 1 s0))
    with (Reordered_array s).
  set (s2 := wrote _ (1 + 1) s0).
  assert (H2 : no_fault (2 + k) (fout s2))
    by (apply no_fault_wrote; exact H0).
  rewrite (then_Continue _ _ s2 _
             (fwrite_no_fault_ (fun _ => Zeros) (244 - Lvf) s2 (1 + k) H2
                ltac:(lia)
                ltac:(unfold Zeros; rewrite repeat_length; lia))).
  rewrite emit_wrote, firstn_Zeros by lia. subst s2. rewrite wrote_wrote.
  set (s3 := wrote _ (1 + 1 + 1) s0).
  assert (H3 : no_fault (1 + k) (fout s3))
    by (apply no_fault_wrote; exact H0).
  rewrite (then_Continue _ _ s3 _
             (fwrite_no_fault_ (fun s => [mode s]) 1 s3 k H3
                ltac:(lia) ltac:(cbn; lia))).
  rewrite emit_wrote. subst s3. rewrite wrote_wrote.
  f_equal. cbn [app]. rewrite <- !app_assoc. reflexivity.
Qed.

(** [fwrite( Zeros, sizeof(short), 4, fout );] on a device without fault. *)
Lemma fwrite_Zeros_4_no_fault (s : state) (k : nat) :
  no_fault (S k) (fout s) ->
  fwrite_ (fun _ => Zeros) 4 s = (wrote (repeat 0 4) 1 s, Continue).
Proof.
  intros Hf.
  rewrite (fwrite_no_fault_ (fun _ => Zeros) 4 s k Hf ltac:(lia)
             ltac:(unfold Zeros; rewrite repeat_length; lia)).
  reflexivity.
Qed.


(** The words of an AMR slot on a device without fault: three records, the
    first two under the header of [bfi1], the third under that of [bfi2]. *)
Lemma write_AMR_no_fault g (s : state) :
  let Lvf := Length_vocoder_frame (P g) in
  let L := Z.to_nat Lvf in
  let R := Reordered_array s in
  let m := Word16 (CoderType g - 1) in
  0 <= Lvf <= 244 -> (3 * L <= length R)%nat -> no_fault 15 (fout s) ->
  exists s',
    write_AMR g s = (s', Continue) /\
    written (fout s')
    = written (fout s)
      ++ AMR_record Lvf (bfi3_word (bfi1 s)) (firstn L R) m
      ++ AMR_record Lvf (bfi3_word (bfi1 s)) (firstn L (skipn L R)) m
      ++ AMR_record Lvf (bfi3_word (bfi2 s)) (firstn L (skipn (2 * L) R)) m.
Proof.
  intros Lvf L R m HL HR Hf. unfold write_AMR. fold Lvf.
  rewrite then_assign. set (s0 := set_mode m s).
  change (fun s1 : state => Reordered_array s1)
    with (fun s1 : state => skipn 0 (Reordered_array s1)).
  replace (Z.to_nat (2 * Lvf)) with (2 * L)%nat by (subst L; lia).
  fold L.
  rewrite (write_AMR_frame_no_fault bfi1 0 Lvf _ s0 11 HL
             ltac:(cbn; fold R; lia) Hf).
  set (s1 := wrote _ 4 _).
  assert (H1 : no_fault 11 (fout s1)).
  { apply (no_fault_wrote _ 4 _ 11). exact Hf. }
  rewrite (then_Continue _ _ s1 _ (fwrite_Zeros_4_no_fault s1 10 H1)).
  set (s2 := wrote _ 1 s1).
  assert (H2 : no_fault 10 (fout s2)).
  { apply (no_fault_wrote _ 1 _ 10). exact H1. }
  rewrite (write_AMR_frame_no_fault bfi1 L Lvf _ s2 6 HL
             ltac:(cbn; fold R; lia) H2).
  set (s3 := wrote _ 4 _).
  assert (H3 : no_fault 6 (fout s3)).
  { apply (no_fault_wrote _ 4 _ 6). exact H2. }
  rewrite (then_Continue _ _ s3 _ (fwrite_Zeros_4_no_fault s3 5 H3)).
  set (s4 := wrote _ 1 s3).
  assert (H4 : no_fault 5 (fout s4)).
  { apply (no_fault_wrote _ 1 _ 5). exact H3. }
  rewrite (write_AMR_frame_no_fault bfi2 (2 * L) Lvf _ s4 1 HL
             ltac:(cbn; fold R; lia) H4).
  set (s5 := wrote _ 4 _).
  assert (H5 : no_fault 1 (fout s5)).
  { apply (no_fault_wrote _ 4 _ 1). exact H4. }
  rewrite (fwrite_Zeros_4_no_fault s5 0 H5).
  eexists. split; [reflexivity |].
  subst s5 s4 s3 s2 s1 s0. unfold AMR_record. cbn.
  repeat (rewrite <- app_assoc; cbn). reflexivity.
Qed.

End Writing.

(** ** One pass of the loop *)

Section Driver.

Context {decoder_state : Type}.
Variable trellis0 : decoder_state.
Variables Desinterleaving_Speech Desinterleaving_Signalling : list Z -> list Z.
Variable Channel_Decoding :
  params -> decoder_state -> Z -> Z -> list Z -> list Z ->
  Z * list Z * decoder_state.
Variables TETRA AMR475 : coder_tab.

Local Abbreviation state := (state decoder_state).
Local Abbreviation decoded_bfi :=
  (decoded_bfi decoder_state Desinterleaving_Speech
     Desinterleaving_Signalling Channel_Decoding).
Local Abbreviation decode_slot :=
  (decode_slot decoder_state Desinterleaving_Speech
     Desinterleaving_Signalling Channel_Decoding).
Local Abbreviation process_slot :=
  (process_slot decoder_state Desinterleaving_Speech
     Desinterleaving_Signalling Channel_Decoding).
Local Abbreviation main_loop :=
  (main_loop decoder_state Desinterleaving_Speech
     Desinterleaving_Signalling Channel_Decoding).
Local Abbreviation pass :=
  (pass decoder_state Desinterleaving_Speech
     Desinterleaving_Signalling Channel_Decoding).
Local Abbreviation command_line := (command_line TETRA AMR475).
Local Abbreviation main :=
  (main decoder_state trellis0 Desinterleaving_Speech
     Desinterleaving_Signalling Channel_Decoding TETRA AMR475).

(** The slot read is stored, then decoded. *)
Local Abbreviation stored slot s := (set_Interleaved_coded_array slot s).

(** What the decoding part does to each variable. *)
Lemma decode_slot_frame g (s : state) :
  let s' := decode_slot g s in
  Loop_counter s' = Word32 (Loop_counter s + 1) /\
  Frame_stealing s' = Frame_stealing s /\
  fout s' = fout s /\
  bfi3 s' = bfi3 s.
Proof.
  unfold decode_slot.
  destruct (Channel_Decoding _ _ _ _ _ _) as [[r R'] d'].
  destruct (CoderType g =? 0); cbn; auto.
Qed.

Lemma decode_slot_bfi g (s : state) :
  let stealing := Frame_stealing s in
  let r := decoded_bfi g s in
  let s' := decode_slot g s in
  let crossed := if (stealing =? 0) && (r =? 1) then 1 else stealing in
  (bfi1 s', bfi2 s')
  = if CoderType g =? 0 then (crossed, r) else (r, crossed).
Proof.
  unfold decode_slot, decoded_bfi, decoded.
  destruct (Channel_Decoding _ _ _ _ _ _) as [[r R'] d'].
  destruct (CoderType g =? 0); reflexivity.
Qed.

Lemma decode_slot_bfi_TETRA g (s : state) :
  CoderType g = 0 ->
  bfi2 (decode_slot g s) = decoded_bfi g s /\
  bfi1 (decode_slot g s)
  = if (Frame_stealing s =? 0) && (decoded_bfi g s =? 1) then 1
    else Frame_stealing s.
Proof.
  intros Hc. pose proof (decode_slot_bfi g s) as H. cbv zeta in H.
  rewrite Hc in H. cbn [Z.eqb] in H. injection H as H1 H2. auto.
Qed.

Lemma decode_slot_stdout g (s : state) :
  let nb := Word32 (Loop_counter s + 1) in
  stdout (decode_slot g s)
  = stdout s
    ++ (if Frame_stealing s =? 0 then [] else [was_stolen nb])
    ++ (if decoded_bfi g s =? 0 then [] else [bfi_active nb]).
Proof.
  unfold decode_slot, decoded_bfi, decoded.
  destruct (Channel_Decoding _ _ _ _ _ _) as [[r R'] d']. cbn [fst].
  destruct (CoderType g =? 0), (Frame_stealing s =? 0), (Word16 r =? 0);
    cbn [stdout app]; rewrite ?app_nil_r, <- ?app_assoc; reflexivity.
Qed.

(** C3.  The cross-pollination of the bad frame indicators.  In TETRA mode
    [bfi2] is the result of the decoder, and [bfi1] is set to 1 when frame
    stealing is inactive and [bfi2] is 1; in AMR475 mode the two indicators
    change places.  On a stolen slot, and whenever the decoder does not
    return 1, the other indicator keeps the value of the stealing flag. *)
Theorem BFI_cross_pollination g (s : state) :
  let stealing := Frame_stealing s in
  let r := decoded_bfi g s in
  let s' := decode_slot g s in
  (CoderType g = 0 ->
   bfi2 s' = r /\
   (stealing = 0 -> bfi2 s' = 1 -> bfi1 s' = 1) /\
   (stealing <> 0 \/ bfi2 s' <> 1 -> bfi1 s' = stealing)) /\
  (CoderType g = 1 ->
   bfi1 s' = r /\
   (stealing = 0 -> bfi1 s' = 1 -> bfi2 s' = 1) /\
   (stealing <> 0 \/ bfi1 s' <> 1 -> bfi2 s' = stealing)).
Proof.
  intros stealing r s'. pose proof (decode_slot_bfi g s) as H.
  cbv zeta in H. fold stealing r s' in H.
  split; intros Hc; rewrite Hc in H; cbn in H; injection H as H1 H2;
    rewrite ?H1, ?H2.
  - split; [reflexivity |]. split.
    + intros -> ->. reflexivity.
    + intros [Hs | Hr].
      * destruct (Z.eqb_spec stealing 0); [contradiction | reflexivity].
      * destruct (Z.eqb_spec r 1); [contradiction |].
        rewrite andb_false_r. reflexivity.
  - split; [reflexivity |]. split.
    + intros -> ->. reflexivity.
    + intros [Hs | Hr].
      * destruct (Z.eqb_spec stealing 0); [contradiction | reflexivity].
      * destruct (Z.eqb_spec r 1); [contradiction |].
        rewrite andb_false_r. reflexivity.
Qed.


Lemma process_slot_writes_only g slot (s : state) :
  writes_only (decode_slot g (stored slot s)) (process_slot g slot s).
Proof. apply write_slot_writes_only. Qed.

(** C4.  In TETRA mode, on a slot with frame stealing active, [bfi1] is 1
    when the pass ends, and the word the pass puts first on the output, if
    it puts any, is that 1. *)
Theorem stolen_slot_bfi1 g slot (s : state) :
  CoderType g = 0 -> Frame_stealing s = 1 ->
  let s' := fst (process_slot g slot s) in
  bfi1 (decode_slot g (stored slot s)) = 1 /\
  bfi1 s' = 1 /\
  (written (fout s') = written (fout s) \/
   exists rest, written (fout s') = written (fout s) ++ 1 :: rest).
Proof.
  intros Hc Hs s'.
  assert (Hb : bfi1 (decode_slot g (stored slot s)) = 1).
  { destruct (decode_slot_bfi_TETRA g (stored slot s) Hc) as [_ H].
    cbn [Frame_stealing set_Interleaved_coded_array] in H.
    rewrite Hs in H. exact H. }
  split; [exact Hb |].
  pose proof (process_slot_writes_only g slot s) as Hw.
  destruct Hw as (_ & _ & Hw & _). fold s' in Hw. split; [congruence |].
  subst s'. unfold process_slot, write_slot. rewrite Hc. cbn [Z.eqb].
  unfold write_TETRA.
  set (d := decode_slot g (stored slot s)) in *.
  assert (Hf : fout d = fout s).
  { destruct (decode_slot_frame g (stored slot s)) as (_ & _ & H & _).
    exact H. }
  destruct (fwrite_or_break (fun s0 => [bfi1 s0]) 1 d) as [s1 fl] eqn:E1.
  destruct fl.
  - rewrite (then_Continue _ _ _ _ E1).
    apply fwrite_or_break_inv in E1 as [-> _].
    match goal with |- context [fst (?a ?x)] =>
      assert (Hr : writes_only x (a x))
    end.
    { repeat (apply then_writes_only;
              [intros; apply fwrite_or_break_writes_only |]).
      intros; apply fwrite_or_break_writes_only. }
    destruct Hr as (_ & _ & _ & _ & _ & _ & _ & [items Hi] & _).
    right. exists items. rewrite Hi. cbn. rewrite Hb, Hf, <- app_assoc.
    reflexivity.
  - rewrite (then_Break _ _ _ _ E1). cbn [fst].
    unfold fwrite_or_break in E1.
    destruct (fwrite_written [bfi1 d] 1 (fout d)) as (items & Hi & Hn & Hp & Hl).
    destruct (fwrite [bfi1 d] 1 (fout d)) as [r f]. cbn [fst snd] in *.
    destruct (Z.eqb_spec r 1) as [-> | Hne]; cbn [negb] in E1;
      [discriminate |].
    injection E1 as <-. cbn. rewrite Hi, Hf.
    destruct items as [| x [| y items]]; cbn in Hl, Hn; try lia.
    left. apply app_nil_r.
Qed.


(** On a device without fault the four writes of a TETRA slot succeed. *)
Lemma write_TETRA_no_fault (s : state) :
  (274 <= length (Reordered_array s))%nat -> no_fault 4 (fout s) ->
  exists s', write_TETRA s = (s', Continue).
Proof.
  intros HR Hf. unfold write_TETRA.
  rewrite (then_Continue _ _ s _
             (fwrite_or_break_no_fault (fun s => [bfi1 s]) 1 s 3 Hf
                ltac:(lia) ltac:(cbn; lia))).
  rewrite emit_wrote. set (s1 := wrote _ 1 s).
  assert (H1 : no_fault 3 (fout s1)) by (apply no_fault_wrote; exact Hf).
  rewrite (then_Continue _ _ s1 _
             (fwrite_or_break_no_fault (fun s => Reordered_array s) 137 s1 2
                H1 ltac:(lia) ltac:(cbn; lia))).
  rewrite emit_wrote. set (s2 := wrote _ 1 s1).
  assert (H2 : no_fault 2 (fout s2)) by (apply no_fault_wrote; exact H1).
  rewrite (then_Continue _ _ s2 _
             (fwrite_or_break_no_fault (fun s => [bfi2 s]) 1 s2 1 H2
                ltac:(lia) ltac:(cbn; lia))).
  rewrite emit_wrote. set (s3 := wrote _ 1 s2).
  assert (H3 : no_fault 1 (fout s3)) by (apply no_fault_wrote; exact H2).
  rewrite (fwrite_or_break_no_fault
             (fun s => skipn 137 (Reordered_array s)) 137 s3 0 H3
             ltac:(lia)
             ltac:(unfold s3, s2, s1, wrote, set_fout;
                   cbn [Reordered_array]; rewrite length_skipn; lia)).
  eexists. reflexivity.
Qed.

(** C9.  In TETRA mode, on a slot with frame stealing inactive, the two bad
    frame indicators are equal when the decoder returns an indicator (0 or
    1): [bfi1] starts at the stealing flag, 0, and is set to 1 exactly when
    [bfi2] is 1.  A slot written in full carries that one value in both of
    its header words. *)
Theorem TETRA_indicators_equal g slot (s : state) :
  CoderType g = 0 -> Frame_stealing s = 0 ->
  decoded_bfi g (stored slot s) = 0 \/ decoded_bfi g (stored slot s) = 1 ->
  let d := decode_slot g (stored slot s) in
  (bfi1 d = 1 <-> bfi2 d = 1) /\
  bfi1 d = bfi2 d /\
  forall s',
    process_slot g slot s = (s', Continue) ->
    bfi1 s' = bfi2 s' /\
    exists frame1 frame2,
      length frame1 = 137%nat /\ length frame2 = 137%nat /\
      written (fout s')
      = written (fout s) ++ TETRA_record (bfi1 s') frame1 (bfi1 s') frame2.
Proof.
  intros Hc Hs Hr d.
  destruct (decode_slot_bfi_TETRA g (stored slot s) Hc) as [H2 H1].
  fold d in H1, H2.
  cbn [Frame_stealing set_Interleaved_coded_array] in H1.
  rewrite Hs in H1. cbn [Z.eqb andb] in H1.
  assert (E : bfi1 d = bfi2 d).
  { rewrite H1, H2. destruct Hr as [-> | ->]; reflexivity. }
  split; [rewrite E; tauto |]. split; [exact E |].
  intros s' Hp.
  pose proof (process_slot_writes_only g slot s) as Hw. rewrite Hp in Hw.
  destruct Hw as (_ & _ & W1 & W2 & _). cbn [fst] in W1, W2. fold d in W1, W2.
  split; [congruence |].
  unfold process_slot, write_slot in Hp. rewrite Hc in Hp. cbn [Z.eqb] in Hp.
  apply write_TETRA_Continue in Hp. cbv zeta in Hp. fold d in Hp.
  destruct Hp as (Hp & L1 & L2).
  destruct (decode_slot_frame g (stored slot s)) as (_ & _ & Hf & _).
  fold d in Hf. rewrite Hf in Hp. cbn [fout set_Interleaved_coded_array] in Hp.
  eexists _, _. split; [exact L1 |]. split; [exact L2 |].
  rewrite Hp, W1, E. reflexivity.
Qed.

Lemma AMR_record_length Lvf header frame m :
  0 <= Lvf <= 244 -> length frame = Z.to_nat Lvf ->
  length (AMR_record Lvf header frame m) = 250%nat.
Proof.
  intros HL Hf. unfold AMR_record. cbn [length].
  rewrite !length_app. cbn [length]. rewrite !repeat_length, Hf. lia.
Qed.

(** C2.  A slot written in full adds a fixed number of 16-bit words to the
    output.  In TETRA mode the record is bfi1, 137 frame words, bfi2, 137
    frame words: 276 words, 552 bytes; the four writes do succeed on a device
    without fault.  In AMR475 mode it is three records of 250 words: 750
    words, 1500 bytes, for a vocoder frame length between 0 and 244 that the
    array holds three times. *)
Theorem slot_word_count g slot (s : state) :
  let d := decode_slot g (stored slot s) in
  let Lvf := Length_vocoder_frame (P g) in
  (CoderType g = 0 ->
   (forall s',
       process_slot g slot s = (s', Continue) ->
       exists frame1 frame2,
         length frame1 = 137%nat /\ length frame2 = 137%nat /\
         written (fout s')
         = written (fout s) ++ TETRA_record (bfi1 s') frame1 (bfi2 s') frame2
         /\ length (written (fout s'))
            = (length (written (fout s)) + 276)%nat
         /\ file_bytes (fout s') = (file_bytes (fout s) + 552)%nat) /\
   ((274 <= length (Reordered_array d))%nat -> no_fault 4 (fout s) ->
    exists s', process_slot g slot s = (s', Continue))) /\
  (CoderType g = 1 ->
   0 <= Lvf <= 244 -> 3 * Lvf <= Z.of_nat (length (Reordered_array d)) ->
   no_fault 15 (fout s) ->
   exists s' record1 record2 record3,
     process_slot g slot s = (s', Continue) /\
     length record1 = 250%nat /\ length record2 = 250%nat /\
     length record3 = 250%nat /\
     written (fout s') = written (fout s) ++ record1 ++ record2 ++ record3 /\
     length (written (fout s')) = (length (written (fout s)) + 750)%nat /\
     file_bytes (fout s') = (file_bytes (fout s) + 1500)%nat).
Proof.
  intros d Lvf.
  destruct (decode_slot_frame g (stored slot s)) as (_ & _ & Hf & _).
  fold d in Hf. cbn [fout set_Interleaved_coded_array] in Hf.
  pose proof (process_slot_writes_only g slot s) as Hk. fold d in Hk.
  unfold process_slot, write_slot in *.
  split.
  - intros Hc. rewrite Hc in *. cbn [Z.eqb] in *. fold d in Hk |- *. split.
    + intros s' Hp. rewrite Hp in Hk.
      destruct Hk as (_ & _ & K1 & K2 & _). cbn [fst] in K1, K2.
      apply write_TETRA_Continue in Hp.
      destruct Hp as (Hp & L1 & L2). rewrite Hf in Hp.
      eexists _, _. split; [exact L1 |]. split; [exact L2 |].
      split; [rewrite Hp, K1, K2; reflexivity |].
      unfold file_bytes. rewrite Hp. unfold TETRA_record.
      rewrite length_app. cbn [length]. rewrite length_app. cbn [length].
      rewrite L1, L2. lia.
    + intros HR Hn. apply write_TETRA_no_fault; [exact HR |].
      rewrite Hf. exact Hn.
  - intros Hc HL HR Hn. rewrite Hc in *. cbn [Z.eqb] in *. fold d.
    destruct (write_AMR_no_fault g d) as (s' & Hp & Hw).
    + exact HL.
    + fold Lvf. lia.
    + rewrite Hf. exact Hn.
    + fold Lvf in Hw. rewrite Hf in Hw.
      eexists s', _, _, _. split; [exact Hp |].
      assert (L : forall h off,
                 (off + Z.to_nat Lvf <= length (Reordered_array d))%nat ->
                 length (AMR_record Lvf h
                           (firstn (Z.to_nat Lvf)
                              (skipn off (Reordered_array d)))
                           (Word16 (CoderType g - 1))) = 250%nat).
      { intros h off Ho. apply AMR_record_length; [exact HL |].
        rewrite length_firstn, length_skipn. lia. }
      pose proof (L (bfi3_word (bfi1 d)) 0%nat ltac:(lia)) as L1.
      cbn [skipn] in L1.
      pose proof (L (bfi3_word (bfi1 d)) (Z.to_nat Lvf) ltac:(lia)) as L2.
      pose proof (L (bfi3_word (bfi2 d)) (2 * Z.to_nat Lvf)%nat ltac:(lia))
        as L3.
      split; [exact L1 |]. split; [exact L2 |]. split; [exact L3 |].
      split; [exact Hw |].
      unfold file_bytes. rewrite Hw, !length_app, L1, L2, L3. lia.
Qed.

(** C1, as the code has it.  In AMR475 mode a slot written in full is three
    records whose header words are derived from the two indicators of the
    slot: the headers of the first and of the second speech frame from
    [bfi1], the header of the third from [bfi2], each 3 when the indicator
    is set and 0 when it is clear. *)
Theorem AMR475_headers g slot (s : state) :
  let d := decode_slot g (stored slot s) in
  let Lvf := Length_vocoder_frame (P g) in
  CoderType g = 1 ->
  0 <= Lvf <= 244 -> 3 * Lvf <= Z.of_nat (length (Reordered_array d)) ->
  no_fault 15 (fout s) ->
  exists s' frame1 frame2 frame3,
    process_slot g slot s = (s', Continue) /\
    bfi1 s' = bfi1 d /\ bfi2 s' = bfi2 d /\
    length frame1 = Z.to_nat Lvf /\
    length frame2 = Z.to_nat Lvf /\
    length frame3 = Z.to_nat Lvf /\
    written (fout s')
    = written (fout s)
      ++ AMR_record Lvf (bfi3_word (bfi1 d)) frame1 0
      ++ AMR_record Lvf (bfi3_word (bfi1 d)) frame2 0
      ++ AMR_record Lvf (bfi3_word (bfi2 d)) frame3 0.
Proof.
  intros d Lvf Hc HL HR Hn.
  destruct (decode_slot_frame g (stored slot s)) as (_ & _ & Hf & _).
  fold d in Hf. cbn [fout set_Interleaved_coded_array] in Hf.
  pose proof (process_slot_writes_only g slot s) as Hk.
  unfold process_slot, write_slot in *. rewrite Hc in *. cbn [Z.eqb] in *.
  fold d in Hk |- *.
  destruct (write_AMR_no_fault g d) as (s' & Hp & Hw).
  - exact HL.
  - fold Lvf. lia.
  - rewrite Hf. exact Hn.
  - rewrite Hp in Hk. destruct Hk as (_ & _ & K1 & K2 & _).
    cbn [fst] in K1, K2. rewrite Hc in Hw. fold Lvf in Hw.
    change (Word16 (1 - 1)) with 0 in Hw.
    eexists s', _, _, _. split; [exact Hp |].
    split; [exact K1 |]. split; [exact K2 |].
    rewrite Hw, Hf.
    repeat split; rewrite length_firstn, ?length_skipn; lia.
Qed.


(** ** The loop *)

Lemma schedule_Loop_counter g (s : state) :
  Loop_counter (schedule g s) = Loop_counter s.
Proof. unfold schedule. destruct (FRAME_STEALING g =? 0); reflexivity. Qed.

Lemma schedule_Frame_stealing g (s : state) :
  Frame_stealing (schedule g s)
  = if FRAME_STEALING g =? 0 then Frame_stealing s
    else if Z.rem (Loop_counter s) 10 =? 2 then 1 else 0.
Proof. unfold schedule. destruct (FRAME_STEALING g =? 0); reflexivity. Qed.

Lemma schedule_stdout g (s : state) : stdout (schedule g s) = stdout s.
Proof. unfold schedule. destruct (FRAME_STEALING g =? 0); reflexivity. Qed.

(** A pass that goes on has counted its slot and left the stealing flag as
    the schedule set it. *)
Lemma process_slot_counter g slot (s s' : state) fl :
  process_slot g slot s = (s', fl) ->
  Loop_counter s' = Word32 (Loop_counter s + 1) /\
  Frame_stealing s' = Frame_stealing s.
Proof.
  intros Hp. pose proof (process_slot_writes_only g slot s) as Hw.
  rewrite Hp in Hw. destruct Hw as (W1 & _ & _ & _ & _ & W2 & _).
  destruct (decode_slot_frame g (stored slot s)) as (D1 & D2 & _).
  cbn [fst] in W1, W2. rewrite W1, W2, D1, D2. auto.
Qed.

Lemma main_loop_nil g (s : state) :
  main_loop g [] s = print end_of_input (schedule g s).
Proof. reflexivity. Qed.

Lemma main_loop_cons g slot rest (s : state) :
  main_loop g (slot :: rest) s
  = match process_slot g slot (schedule g s) with
    | (s', Break) => s'
    | (s', Continue) => main_loop g rest s'
    end.
Proof. reflexivity. Qed.

Lemma pass_nil g (s : state) k : pass g [] s k = None.
Proof. reflexivity. Qed.

Lemma pass_cons g slot rest (s : state) k :
  pass g (slot :: rest) s k
  = match k with
    | O => Some (slot, schedule g s)
    | S k' =>
        match process_slot g slot (schedule g s) with
        | (s', Break) => None
        | (s', Continue) => pass g rest s' k'
        end
    end.
Proof. reflexivity. Qed.

(** The loop counter is the index of the pass, and the stealing flag of a
    pass is what the schedule makes of that index. *)
Lemma pass_counter g fin (s : state) k slot sk :
  pass g fin s k = Some (slot, sk) ->
  0 <= Loop_counter s -> Loop_counter s + Z.of_nat k < 2 ^ 31 ->
  Loop_counter sk = Loop_counter s + Z.of_nat k /\
  Frame_stealing sk
  = if FRAME_STEALING g =? 0 then Frame_stealing s
    else if (Loop_counter s + Z.of_nat k) mod 10 =? 2 then 1 else 0.
Proof.
  revert s k. induction fin as [| slot0 rest IH]; intros s k Hp H0 Hk.
  - rewrite pass_nil in Hp. discriminate Hp.
  - rewrite pass_cons in Hp. destruct k as [| k].
    + injection Hp as _ <-.
      rewrite schedule_Loop_counter, schedule_Frame_stealing, Z.add_0_r.
      rewrite Z.rem_mod_nonneg by lia. auto.
    + destruct (process_slot g slot0 (schedule g s)) as [s1 [|]] eqn:E;
        [| discriminate].
      apply process_slot_counter in E as [E1 E2].
      rewrite schedule_Loop_counter in E1.
      rewrite Word32_small in E1 by lia.
      apply IH in Hp; [| lia | lia]. destruct Hp as [P1 P2].
      rewrite P1, P2, E1, E2, schedule_Frame_stealing.
      split; [lia |].
      destruct (FRAME_STEALING g =? 0); [reflexivity |].
      replace (Loop_counter s + 1 + Z.of_nat k)
        with (Loop_counter s + Z.of_nat (S k)) by lia.
      reflexivity.
Qed.


Lemma command_line_FRAME_STEALING argv g :
  command_line argv = Some g ->
  FRAME_STEALING g = if stealing_requested argv then 1 else 0.
Proof.
  unfold command_line, stealing_requested.
  rewrite (Z.gtb_ltb (Z.of_nat (length argv)) 4).
  destruct (Z.of_nat (length argv) >=? 4) eqn:E4.
  - destruct ((atoi (arg argv 3) <? 0) || (atoi (arg argv 3) >? 1));
      [discriminate |].
    intros [= <-]. reflexivity.
  - intros [= <-]. cbn [FRAME_STEALING].
    destruct (Z.ltb_spec 4 (Z.of_nat (length argv))); [| reflexivity].
    rewrite Z.geb_leb in E4. apply Z.leb_gt in E4. lia.
Qed.

(** C5, as the code has it.  A fifth argument that begins with the letter S
    (the token S is one) enables the simulation of frame stealing, and then,
    with the slots counted from 0, stealing is active exactly on the slots
    whose index is 2 modulo 10; with no fifth argument, or one that begins
    otherwise, stealing is active on no slot. *)
Theorem stealing_schedule argv g u f fin k slot (s : state) :
  command_line argv = Some g ->
  pass g fin (initial_state trellis0 u f) k = Some (slot, s) ->
  Z.of_nat k < 2 ^ 31 ->
  ((4 < length argv)%nat -> arg argv 4 = "S"%string ->
   stealing_requested argv = true) /\
  (stealing_requested argv = true ->
   FRAME_STEALING g = 1 /\
   (Frame_stealing s = 1 <-> Z.of_nat k mod 10 = 2) /\
   (Frame_stealing s = 0 <-> Z.of_nat k mod 10 <> 2)) /\
  (stealing_requested argv = false ->
   FRAME_STEALING g = 0 /\ Frame_stealing s = 0).
Proof.
  intros Hg Hp Hk.
  apply command_line_FRAME_STEALING in Hg.
  apply pass_counter in Hp; [| cbn; lia | cbn; lia].
  destruct Hp as [_ Hs]. cbn [Loop_counter Frame_stealing initial_state] in Hs.
  rewrite Z.add_0_l in Hs. rewrite Hg in Hs.
  split; [| split]; [intros Hn Ha | intros Hr | intros Hr].
  - unfold stealing_requested. rewrite Ha.
    destruct (Z.ltb_spec 4 (Z.of_nat (length argv))); [reflexivity | lia].
  - rewrite Hr in Hs, Hg. cbn [Z.eqb] in Hs. split; [exact Hg |].
    destruct (Z.eqb_spec (Z.of_nat k mod 10) 2); rewrite Hs;
      split; split; intros; try reflexivity; try assumption;
      try discriminate; contradiction.
  - rewrite Hr in Hs, Hg. cbn [Z.eqb] in Hs. split; [exact Hg | exact Hs].
Qed.

(** C10.  The messages of a pass count the channel frames from 1: the pass
    of index [k] (from 0) prints at most the two messages [was_stolen] and
    [bfi_active], in that order, both with the number [k + 1]; and when
    stealing is simulated the stolen message is printed exactly by the
    passes whose index is 2 modulo 10, which are named 3, 13, 23 and on. *)
Theorem frame_numbers_from_one g u f fin k slot (s : state) :
  pass g fin (initial_state trellis0 u f) k = Some (slot, s) ->
  Z.of_nat k + 1 < 2 ^ 31 ->
  let nb := Z.of_nat k + 1 in
  let d := decode_slot g (stored slot s) in
  stdout d
  = stdout s
    ++ (if Frame_stealing s =? 0 then [] else [was_stolen nb])
    ++ (if decoded_bfi g (stored slot s) =? 0 then [] else [bfi_active nb])
  /\ text (was_stolen nb)
     = ("Frame Nb " ++ ld nb ++ " was stolen" ++ nl)%string
  /\ text (bfi_active nb)
     = ("Frame Nb " ++ ld nb ++ " Bfi active" ++ nl ++ nl)%string
  /\ (FRAME_STEALING g <> 0 ->
      (Frame_stealing s <> 0 <-> Z.of_nat k mod 10 = 2) /\
      (Z.of_nat k mod 10 = 2 -> nb mod 10 = 3)).
Proof.
  intros Hp Hk nb d.
  apply pass_counter in Hp; [| cbn; lia | cbn; lia].
  destruct Hp as [Hl Hs]. cbn [Loop_counter Frame_stealing initial_state] in *.
  rewrite Z.add_0_l in Hl, Hs.
  split; [| split; [reflexivity | split; [reflexivity |]]].
  - subst d. rewrite decode_slot_stdout.
    cbn [Loop_counter Frame_stealing stdout set_Interleaved_coded_array].
    rewrite Hl, Word32_small by lia. reflexivity.
  - intros Hfs. destruct (Z.eqb_spec (FRAME_STEALING g) 0) as [| _];
      [contradiction |].
    split.
    + rewrite Hs. destruct (Z.eqb_spec (Z.of_nat k mod 10) 2); split;
        intros; try assumption; try discriminate; contradiction.
    + intros Hm. subst nb. rewrite Z.add_mod, Hm by lia. reflexivity.
Qed.


(** *** The framing of a whole TETRA run *)

Lemma schedule_fout g (s : state) : fout (schedule g s) = fout s.
Proof. unfold schedule. destruct (FRAME_STEALING g =? 0); reflexivity. Qed.



(** ** Two runs on the same input *)

Lemma alike_weaken n b (s1 s2 : state) :
  alike n b s1 s2 -> alike n false s1 s2.
Proof.
  intros (S & R & _). split; [exact S |]. split; [exact R | discriminate].
Qed.

Lemma sim_then n b1 b2 b3 (a b : step decoder_state) :
  sim n b1 b2 a -> sim n b2 b3 b -> sim n b1 b3 (then_ a b).
Proof.
  intros Ha Hb s1 s2 H. destruct (Ha s1 s2 H) as [H1 H2]. unfold then_.
  destruct (a s1) as [t1 f1], (a s2) as [t2 f2]. cbn [fst snd] in *.
  subst f2. destruct f1.
  - apply Hb. exact H2.
  - split; [reflexivity | exact H2].
Qed.

Lemma sim_fwrite_or_break n b ptr k :
  (forall s1 s2 : state,
      alike n b s1 s2 ->
      firstn (Z.to_nat k) (ptr s1) = firstn (Z.to_nat k) (ptr s2)) ->
  sim n b b (fwrite_or_break ptr k).
Proof.
  intros Hptr s1 s2 H. unfold fwrite_or_break.
  rewrite (fwrite_prefix (ptr s1) (ptr s2) k (fout s1)) by (apply Hptr, H).
  destruct H as (S & R & M). unfold same_run in S.
  destruct S as (S1 & S2 & S3 & S4 & S5 & S6 & S7 & S8 & S9).
  rewrite S8. destruct (fwrite (ptr s2) k (fout s2)) as [r f].
  destruct (negb (r =? k)); cbn [fst snd]; (split; [reflexivity |]);
    unfold alike, same_run; cbn; repeat split; try congruence; auto.
Qed.

Lemma sim_fwrite n b ptr k :
  (forall s1 s2 : state,
      alike n b s1 s2 ->
      firstn (Z.to_nat k) (ptr s1) = firstn (Z.to_nat k) (ptr s2)) ->
  sim n b b (fwrite_ ptr k).
Proof.
  intros Hptr s1 s2 H. unfold fwrite_.
  rewrite (fwrite_prefix (ptr s1) (ptr s2) k (fout s1)) by (apply Hptr, H).
  destruct H as (S & R & M). unfold same_run in S.
  destruct S as (S1 & S2 & S3 & S4 & S5 & S6 & S7 & S8 & S9).
  rewrite S8. cbn [fst snd]. split; [reflexivity |].
  unfold alike, same_run; cbn; repeat split; try congruence; auto.
Qed.


Lemma sim_bfi3_of n b (v : state -> Z) :
  (forall s1 s2 : state, alike n b s1 s2 -> v s1 = v s2) ->
  sim n b b (bfi3_of v).
Proof.
  intros Hv s1 s2 H. unfold bfi3_of, assign. cbn [fst snd].
  split; [reflexivity |]. rewrite (Hv s1 s2 H).
  destruct H as (S & R & M). unfold same_run in S.
  destruct S as (S1 & S2 & S3 & S4 & S5 & S6 & S7 & S8 & S9).
  unfold alike, same_run; cbn; repeat split; try congruence; auto.
Qed.

Lemma sim_set_mode n b v :
  sim n b true (@assign decoder_state (set_mode v)).
Proof.
  intros s1 s2 H. unfold assign. cbn [fst snd]. split; [reflexivity |].
  destruct H as (S & R & M). unfold same_run in S.
  destruct S as (S1 & S2 & S3 & S4 & S5 & S6 & S7 & S8 & S9).
  unfold alike, same_run; cbn; repeat split; try congruence; auto.
Qed.

(** Pieces of two arrays that agree on a prefix. *)
Lemma prefix_piece (R1 R2 : list Z) n off len :
  (off + len <= n)%nat ->
  firstn n R1 = firstn n R2 ->
  firstn len (skipn off R1) = firstn len (skipn off R2).
Proof.
  intros Hle H. rewrite !firstn_skipn_comm.
  rewrite <- (Nat.min_l (off + len) n) by exact Hle.
  rewrite <- !firstn_firstn, H. reflexivity.
Qed.

Lemma write_TETRA_sim : sim 274 false false (@write_TETRA decoder_state).
Proof.
  unfold write_TETRA.
  repeat apply sim_then with (b2 := false); apply sim_fwrite_or_break;
    intros s1 s2 (S & R & _); unfold same_run in S.
  - f_equal. f_equal. tauto.
  - apply (prefix_piece _ _ 274 0 137); [lia | exact R].
  - f_equal. f_equal. tauto.
  - apply (prefix_piece _ _ 274 137 137); [lia | exact R].
Qed.

Lemma write_AMR_sim g :
  sim (3 * Z.to_nat (Length_vocoder_frame (P g))) false true
    (@write_AMR decoder_state g).
Proof.
  unfold write_AMR.
  set (Lvf := Length_vocoder_frame (P g)).
  apply sim_then with (b2 := true); [apply sim_set_mode |].
  repeat (apply sim_then with (b2 := true);
          [first [ apply sim_bfi3_of | apply sim_fwrite_or_break
                 | apply sim_fwrite ];
           intros s1 s2 (S & R & M); unfold same_run in S |]).
  all: try reflexivity.
  all: try (apply sim_fwrite; intros s1 s2 (S & R & M); reflexivity).
  all: try tauto.
  all: try (f_equal; f_equal; first [tauto | apply M; reflexivity]).
  - apply (prefix_piece _ _ (3 * Z.to_nat Lvf) 0 (Z.to_nat Lvf));
      [lia | exact R].
  - apply (prefix_piece _ _ (3 * Z.to_nat Lvf) (Z.to_nat Lvf)
             (Z.to_nat Lvf)); [lia | exact R].
  - apply (prefix_piece _ _ (3 * Z.to_nat Lvf) (Z.to_nat (2 * Lvf))
             (Z.to_nat Lvf)); [lia | exact R].
Qed.


Lemma write_slot_sim g :
  sim (emitted g) false false (@write_slot decoder_state g)
  \/ sim (emitted g) false true (@write_slot decoder_state g).
Proof.
  unfold write_slot, emitted. destruct (CoderType g =? 0).
  - left. exact write_TETRA_sim.
  - right. exact (write_AMR_sim g).
Qed.

(** The decoding part takes two runs that agree, on a slot that is not
    stolen or with arrays that agree, to two runs that agree. *)
Lemma decode_slot_alike g slot (s1 s2 : state) :
  fills_frames Channel_Decoding (P g) (emitted g) ->
  same_run s1 s2 ->
  Frame_stealing s1 = 0 \/
  firstn (emitted g) (Reordered_array s1)
  = firstn (emitted g) (Reordered_array s2) ->
  alike (emitted g) false
    (decode_slot g (stored slot s1)) (decode_slot g (stored slot s2)).
Proof.
  intros Hfill S HR. unfold same_run in S.
  destruct S as (S1 & S2 & S3 & S4 & S5 & S6 & S7 & S8 & S9).
  unfold decode_slot.
  cbn [Frame_stealing Interleaved_coded_array Loop_counter stdout trellis
       first_pass Reordered_array bfi3 mode fout
       set_Interleaved_coded_array].
  rewrite <- S1, <- S2, <- S5, <- S6, <- S7, <- S8, <- S9.
  specialize (Hfill (trellis s1) (first_pass s1) (Frame_stealing s1)
                (deinterleave Desinterleaving_Speech
                   Desinterleaving_Signalling (Frame_stealing s1) slot)
                (Reordered_array s1) (Reordered_array s2)).
  cbv zeta in Hfill.
  destruct (Channel_Decoding _ _ _ _ _ (Reordered_array s1))
    as [[r1 R1'] d1].
  destruct (Channel_Decoding _ _ _ _ _ (Reordered_array s2))
    as [[r2 R2'] d2].
  cbn [fst snd] in Hfill. destruct Hfill as (-> & -> & Hfill).
  specialize (Hfill HR).
  destruct (CoderType g =? 0); unfold alike, same_run; cbn;
    repeat split; try reflexivity; try exact Hfill; discriminate.
Qed.

Lemma schedule_same_run g (s1 s2 : state) :
  same_run s1 s2 -> same_run (schedule g s1) (schedule g s2).
Proof.
  unfold schedule, same_run, set_Frame_stealing.
  intros (S1 & S2 & S3 & S4 & S5 & S6 & S7 & S8 & S9).
  destruct (FRAME_STEALING g =? 0); cbn; rewrite ?S1; repeat split; auto.
Qed.

Lemma schedule_Reordered_array g (s : state) :
  Reordered_array (schedule g s) = Reordered_array s.
Proof. unfold schedule. destruct (FRAME_STEALING g =? 0); reflexivity. Qed.

(** The loop takes two runs that agree to two runs that agree; the first pass
    of a run is never a stolen one. *)
Lemma main_loop_same_run g fin :
  fills_frames Channel_Decoding (P g) (emitted g) ->
  forall s1 s2 : state,
    same_run s1 s2 ->
    (Loop_counter s1 = 0 /\ Frame_stealing s1 = 0) \/
    firstn (emitted g) (Reordered_array s1)
    = firstn (emitted g) (Reordered_array s2) ->
    same_run (main_loop g fin s1) (main_loop g fin s2).
Proof.
  intros Hfill. induction fin as [| slot rest IH]; intros s1 s2 S HR.
  - rewrite !main_loop_nil. apply (schedule_same_run g) in S.
    unfold same_run in *. cbn. intuition congruence.
  - rewrite !main_loop_cons.
    assert (HR' : Frame_stealing (schedule g s1) = 0 \/
                  firstn (emitted g) (Reordered_array (schedule g s1))
                  = firstn (emitted g) (Reordered_array (schedule g s2))).
    { destruct HR as [[H0 Hs] | HR].
      - left. rewrite schedule_Frame_stealing, H0, Hs.
        destruct (FRAME_STEALING g =? 0); reflexivity.
      - right. rewrite !schedule_Reordered_array. exact HR. }
    pose proof (decode_slot_alike g slot _ _ Hfill
                  (schedule_same_run g s1 s2 S) HR') as Hd.
    unfold process_slot.
    destruct (write_slot_sim g) as [Hw | Hw];
      destruct (Hw _ _ Hd) as [Hfl Ha];
      destruct (write_slot g (decode_slot g (stored slot (schedule g s1))))
        as [t1 f1];
      destruct (write_slot g (decode_slot g (stored slot (schedule g s2))))
        as [t2 f2];
      cbn [fst snd] in Hfl, Ha; subst f2; destruct f1;
      destruct Ha as (Sa & Ra & _);
      first [ exact Sa | apply IH; [exact Sa | right; exact Ra] ].
Qed.

(** C8.  Two runs of the decoder on the same arguments, the same input file
    and the same output device print the same messages, write the same words
    and end with the same status, whatever the locals that [main] leaves
    uninitialised hold at the start, given a [Channel_Decoding] that is a
    function of its arguments and of its own static state and fills the
    frames it is asked for. *)
Theorem runs_agree argv fs u1 u2 :
  (forall g, command_line argv = Some g ->
             fills_frames Channel_Decoding (P g) (emitted g)) ->
  observable (main argv fs u1) = observable (main argv fs u2).
Proof.
  intros Hfill. unfold main.
  destruct ((Z.of_nat (length argv) <? 3) || (Z.of_nat (length argv) >? 5));
    [reflexivity |].
  destruct (open_rb fs (arg argv 1)) as [fin |]; [| reflexivity].
  destruct (open_wb fs (arg argv 2)) as [f |]; [| reflexivity].
  destruct (command_line argv) as [g |] eqn:Eg; [| reflexivity].
  assert (S : same_run
                (main_loop g fin (initial_state trellis0 u1 f))
                (main_loop g fin (initial_state trellis0 u2 f))).
  { apply main_loop_same_run.
    - apply Hfill. reflexivity.
    - unfold same_run. cbn. repeat split.
    - left. split; reflexivity. }
  unfold same_run in S.
  destruct S as (S1 & S2 & S3 & S4 & S5 & S6 & S7 & S8 & S9).
  cbn. rewrite S1, S8, S9. reflexivity.
Qed.

End Driver.

(** ** The theorems at work on sample runs *)

Example text_was_stolen_3 :
  text (was_stolen 3) = ("Frame Nb 3 was stolen" ++ nl)%string.
Proof. reflexivity. Qed.

Example text_bfi_active_13 :
  text (bfi_active 13) = ("Frame Nb 13 Bfi active" ++ nl ++ nl)%string.
Proof. reflexivity. Qed.

Example load_TAB_CRC_sample :
  TAB_CRC (init_params Sample.TETRA Sample.AMR475 0) = [[1; -27; -1]].
Proof. reflexivity. Qed.


Lemma BFI_cross_pollination_witness :
  bfi1 (Sample.decode_slot 1 Sample.g_TETRA Sample.start) = 1 /\
  bfi2 (Sample.decode_slot 1 Sample.g_AMR475 Sample.start) = 1 /\
  bfi1 (Sample.decode_slot 0 Sample.g_TETRA Sample.stolen) = 1.
Proof.
  split; [| split].
  - destruct (BFI_cross_pollination Sample.Desinterleaving
                Sample.Desinterleaving (Sample.Channel_Decoding 286 1)
                Sample.g_TETRA Sample.start) as [H _].
    destruct (H eq_refl) as (_ & H1 & _). apply H1; reflexivity.
  - destruct (BFI_cross_pollination Sample.Desinterleaving
                Sample.Desinterleaving (Sample.Channel_Decoding 286 1)
                Sample.g_AMR475 Sample.start) as [_ H].
    destruct (H eq_refl) as (_ & H1 & _). apply H1; reflexivity.
  - destruct (BFI_cross_pollination Sample.Desinterleaving
                Sample.Desinterleaving (Sample.Channel_Decoding 286 0)
                Sample.g_TETRA Sample.stolen) as [H _].
    destruct (H eq_refl) as (_ & _ & H1). apply H1. left. discriminate.
Defined.

Lemma stolen_slot_bfi1_witness :
  bfi1 (fst (Sample.process_slot 0 Sample.g_TETRA Sample.slot Sample.stolen))
  = 1.
Proof.
  apply (stolen_slot_bfi1 Sample.Desinterleaving Sample.Desinterleaving
           (Sample.Channel_Decoding 286 0) Sample.g_TETRA Sample.slot
           Sample.stolen); reflexivity.
Defined.

Lemma TETRA_indicators_equal_witness :
  bfi1 (Sample.decode_slot 1 Sample.g_TETRA
          (set_Interleaved_coded_array Sample.slot Sample.start))
  = bfi2 (Sample.decode_slot 1 Sample.g_TETRA
            (set_Interleaved_coded_array Sample.slot Sample.start)).
Proof.
  destruct (TETRA_indicators_equal Sample.Desinterleaving
              Sample.Desinterleaving (Sample.Channel_Decoding 286 1)
              Sample.g_TETRA Sample.slot Sample.start)
    as (_ & H & _);
    [reflexivity | reflexivity | right; reflexivity | exact H].
Defined.

Lemma slot_word_count_witness :
  (exists s',
      Sample.process_slot 0 Sample.g_TETRA Sample.slot Sample.start
      = (s', Continue) /\ file_bytes (fout s') = 552%nat) /\
  (exists s',
      Sample.process_slot 0 Sample.g_AMR475 Sample.slot Sample.start
      = (s', Continue) /\ file_bytes (fout s') = 1500%nat).
Proof.
  split.
  - destruct (slot_word_count Sample.Desinterleaving Sample.Desinterleaving
                (Sample.Channel_Decoding 286 0) Sample.g_TETRA Sample.slot
                Sample.start) as [H _].
    destruct (H eq_refl) as [Hlen Hex].
    destruct Hex as [s' Hs'].
    + apply Nat.leb_le. vm_compute. reflexivity.
    + constructor.
    + exists s'. split; [exact Hs' |].
      destruct (Hlen s' Hs') as (_ & _ & _ & _ & _ & _ & Hb).
      rewrite Hb. reflexivity.
  - destruct (slot_word_count Sample.Desinterleaving Sample.Desinterleaving
                (Sample.Channel_Decoding 286 0) Sample.g_AMR475 Sample.slot
                Sample.start) as [_ H].
    destruct H as (s' & r1 & r2 & r3 & Hs' & _ & _ & _ & _ & _ & Hb).
    + reflexivity.
    + cbn. lia.
    + apply Z.leb_le. vm_compute. reflexivity.
    + constructor.
    + exists s'. split; [exact Hs' |]. rewrite Hb. reflexivity.
Defined.

Lemma AMR475_headers_witness :
  exists s' frame1 frame2 frame3,
    Sample.process_slot 1 Sample.g_AMR475 Sample.slot Sample.stolen
    = (s', Continue) /\
    written (fout s')
    = AMR_record 95 3 frame1 0 ++ AMR_record 95 3 frame2 0
      ++ AMR_record 95 3 frame3 0.
Proof.
  destruct (AMR475_headers Sample.Desinterleaving Sample.Desinterleaving
              (Sample.Channel_Decoding 286 1) Sample.g_AMR475 Sample.slot
              Sample.stolen) as (s' & f1 & f2 & f3 & H & _ & _ & _ & _ & _ & W).
  - reflexivity.
  - cbn. lia.
  - apply Z.leb_le. vm_compute. reflexivity.
  - constructor.
  - exists s', f1, f2, f3. split; [exact H | exact W].
Defined.

Lemma stealing_schedule_witness :
  Sample.pass 0 Sample.g_TETRA_S (repeat Sample.slot 3) Sample.start 2
  = Some (Sample.slot, Sample.third_good) /\
  Frame_stealing (Sample.third_good) = 1.
Proof.
  assert (E : Sample.pass 0 Sample.g_TETRA_S (repeat Sample.slot 3)
                Sample.start 2 = Some (Sample.slot, Sample.third_good))
    by (vm_compute; reflexivity).
  split; [exact E |].
  destruct (stealing_schedule tt Sample.Desinterleaving
              Sample.Desinterleaving (Sample.Channel_Decoding 286 0)
              Sample.TETRA Sample.AMR475
              (Sample.cdecoder ["0"; "S"]%string) Sample.g_TETRA_S
              Sample.stack (mk_FILE_out [] []) (repeat Sample.slot 3) 2%nat
              Sample.slot (Sample.third_good)) as (_ & H & _);
    [reflexivity | exact E | reflexivity |].
  destruct (H eq_refl) as (_ & [_ H1] & _). apply H1. reflexivity.
Defined.

Lemma frame_numbers_from_one_witness :
  Sample.pass 1 Sample.g_TETRA_S (repeat Sample.slot 3) Sample.start 2
  = Some (Sample.slot, Sample.third_bad) /\
  stdout (Sample.decode_slot 1 Sample.g_TETRA_S
            (set_Interleaved_coded_array Sample.slot (Sample.third_bad)))
  = stdout (Sample.third_bad) ++ [was_stolen 3] ++ [bfi_active 3].
Proof.
  assert (E : Sample.pass 1 Sample.g_TETRA_S (repeat Sample.slot 3)
                Sample.start 2 = Some (Sample.slot, Sample.third_bad))
    by (vm_compute; reflexivity).
  split; [exact E |].
  destruct (frame_numbers_from_one tt Sample.Desinterleaving
              Sample.Desinterleaving (Sample.Channel_Decoding 286 1)
              Sample.g_TETRA_S Sample.stack (mk_FILE_out [] [])
              (repeat Sample.slot 3) 2%nat Sample.slot (Sample.third_bad) E)
    as (H & _); [reflexivity |].
  exact H.
Defined.

Lemma runs_agree_witness :
  observable (Sample.main 0 (Sample.cdecoder ["1"; "S"]%string)
                (Sample.files 3 []) Sample.stack)
  = observable (Sample.main 0 (Sample.cdecoder ["1"; "S"]%string)
                  (Sample.files 3 []) Sample.stack').
Proof.
  apply (runs_agree tt Sample.Desinterleaving Sample.Desinterleaving
           (Sample.Channel_Decoding 286 0) Sample.TETRA Sample.AMR475).
  intros g Hg. vm_compute in Hg. injection Hg as <-.
  intros d first stealing coded R1 R2. cbv zeta.
  unfold Sample.Channel_Decoding. cbn [fst snd].
  split; [reflexivity |]. split; [reflexivity |]. intros _.
  vm_compute. reflexivity.
Defined.

(** ** Where the code and the specification part *)

(** C1, as stated, fails.  AMR475 with stealing simulated, three clean slots:
    the third slot (index 2) is stolen, the decoder reports its frames good,
    so [bfi1] is 0 and [bfi2] is 1.  The header of the second speech frame
    of that slot, word 2 * 750 + 250 of the output, is 0, the header of
    [bfi1], and not 3, the header of [bfi2]. *)
Lemma AMR475_second_header_counterexample :
  exists s,
    Sample.main 0 (Sample.cdecoder ["1"; "S"]%string) (Sample.files 3 [])
      Sample.stack = Return 0 s /\
    bfi1 s = 0 /\ bfi2 s = 1 /\
    length (written (fout s)) = 2250%nat /\
    nth_error (written (fout s)) 1750 = Some (bfi3_word (bfi1 s)) /\
    nth_error (written (fout s)) 1750 <> Some (bfi3_word (bfi2 s)).
Proof.
  eexists. split; [vm_compute; reflexivity |].
  vm_compute. repeat split. discriminate.
Qed.

(** C5, as stated, fails.  The fifth argument [Sx] is not the token [S], and
    yet stealing is simulated: the pass of index 2 runs with the stealing
    flag set. *)
Lemma stealing_without_token_counterexample :
  arg (Sample.cdecoder ["0"; "Sx"]%string) 4 <> "S"%string /\
  command_line Sample.TETRA Sample.AMR475
    (Sample.cdecoder ["0"; "Sx"]%string) = Some Sample.g_TETRA_S /\
  Sample.pass 0 Sample.g_TETRA_S (repeat Sample.slot 3) Sample.start 2
  = Some (Sample.slot, Sample.third_good) /\
  Frame_stealing Sample.third_good = 1.
Proof.
  split; [discriminate |]. split; [reflexivity |].
  split; [vm_compute; reflexivity | reflexivity].
Qed.

(** C6.  A write the AMR branch does not check.  AMR475, two slots, and a
    device that takes 3 of the 4 padding words of the last [fwrite] of the
    first slot: no message is printed about it, the loop goes on to decode
    and write the second slot, and the output is one word short. *)
Theorem unchecked_padding_write :
  exists s,
    Sample.main 0 (Sample.cdecoder ["1"]%string)
      (Sample.files 2 (repeat None 14 ++ [Some 3%nat])) Sample.stack
    = Return 0 s /\
    stdout s = [end_of_input; frames_processed 2; speech_frames 6] /\
    Loop_counter s = 2 /\
    length (written (fout s)) = 1499%nat.
Proof.
  eexists. split; [vm_compute; reflexivity |].
  vm_compute. repeat split.
Qed.

(** * Further properties *)

(** ** The tables of the parameter set *)

Lemma store_length i v a : length (store i v a) = length a.
Proof.
  revert i. induction a as [| x a IH]; intros [| i]; cbn; auto.
Qed.

Lemma store_app_here (l1 l2 : list Z) v :
  store (length l1) v (l1 ++ l2) = l1 ++ store 0 v l2.
Proof.
  induction l1 as [| x l1 IH]; cbn [length app store].
  - destruct l2; reflexivity.
  - rewrite IH. reflexivity.
Qed.

Lemma firstn_succ_nth (l : list Z) m :
  (m < length l)%nat -> firstn (S m) l = firstn m l ++ [nth m l 0].
Proof.
  revert m. induction l as [| x l IH]; intros m Hm; cbn in Hm; [lia |].
  destruct m as [| m]; [reflexivity |].
  cbn [firstn nth app]. rewrite <- IH by lia. reflexivity.
Qed.

Lemma skipn_cons_nth (l : list Z) m :
  (m < length l)%nat -> skipn m l = nth m l 0 :: skipn (S m) l.
Proof.
  revert m. induction l as [| x l IH]; intros m Hm; cbn in Hm; [lia |].
  destruct m as [| m]; [reflexivity |].
  cbn [skipn nth]. apply IH. lia.
Qed.

(** The copy loop run [m] times. *)
Lemma copy_loop_steps f (src dst : list Z) m :
  (m <= length src)%nat -> (m <= length dst)%nat ->
  fold_left (fun a i => store i (f (nth i src 0)) a) (seq 0 m) dst
  = map f (firstn m src) ++ skipn m dst.
Proof.
  induction m as [| m IH]; intros Hs Hd; [reflexivity |].
  rewrite seq_S, fold_left_app, IH by lia. cbn [fold_left Nat.add].
  assert (Hl : length (map f (firstn m src)) = m)
    by (rewrite length_map, length_firstn; lia).
  rewrite <- Hl at 1. rewrite store_app_here.
  rewrite (skipn_cons_nth dst m) by lia. cbn [store].
  rewrite (firstn_succ_nth src m) by lia.
  rewrite map_app, <- app_assoc. reflexivity.
Qed.

(** X1.  The copy loops of [init_params] stay inside their bounds: after
    [for (i=0; i<n; i++) dst[i] = f(src[i]);] the array holds the images of
    the first [n] entries of the source and, from index [n] on, what it
    held before; its size is unchanged; with [n] zero or negative the loop
    does not run.  For the CRC tables the first [n] entries are the table
    the parameter set keeps. *)
Theorem copy_loop_result f n (src dst : list Z) :
  (Z.to_nat n <= length src)%nat -> (Z.to_nat n <= length dst)%nat ->
  copy_loop f n src dst
  = map f (firstn (Z.to_nat n) src) ++ skipn (Z.to_nat n) dst /\
  length (copy_loop f n src dst) = length dst /\
  (n <= 0 -> copy_loop f n src dst = dst) /\
  forall n1_2,
    firstn (Z.to_nat n)
      (copy_loop (fun x => Word16 (ALLOW_NEG n1_2 x)) n src dst)
    = load_TAB_CRC n1_2 n src.
Proof.
  intros Hs Hd. unfold copy_loop.
  assert (E : forall g,
             fold_left (fun a i => store i (g (nth i src 0)) a)
               (seq 0 (Z.to_nat n)) dst
             = map g (firstn (Z.to_nat n) src) ++ skipn (Z.to_nat n) dst)
    by (intros g; apply copy_loop_steps; assumption).
  split; [apply E |]. split; [| split].
  - rewrite (E f), length_app, length_map, length_firstn, length_skipn. lia.
  - intros Hn. replace (Z.to_nat n) with O by lia. reflexivity.
  - intros n1_2. rewrite (E (fun x => Word16 (ALLOW_NEG n1_2 x))).
    unfold load_TAB_CRC.
    rewrite firstn_app, length_map, length_firstn.
    replace (Z.to_nat n - Nat.min (Z.to_nat n) (length src))%nat with O
      by lia.
    cbn [firstn]. rewrite app_nil_r. apply firstn_all2.
    rewrite length_map, length_firstn. lia.
Qed.

Lemma copy_loop_result_witness :
  copy_loop (fun x => Word16 (ALLOW_NEG 30 x)) 2 [1; -5; -4] [0; 0; 0; 0]
  = [1; -27; 0; 0].
Proof.
  destruct (copy_loop_result (fun x => Word16 (ALLOW_NEG 30 x)) 2
              [1; -5; -4] [0; 0; 0; 0]) as [H _];
    [cbn; lia | cbn; lia |].
  rewrite H. reflexivity.
Defined.

(** The loop over the fixed bits run [m] times from [j]. *)
Lemma fixed_bits_loop_steps (src_row src_list : list Z) m :
  forall row lst j,
    (m <= length src_row)%nat -> (m <= length row)%nat ->
    (j + m <= length src_list)%nat -> (j + m <= length lst)%nat ->
    fold_left (fun st i =>
                 let '(row, lst, j) := st in
                 (store i (nth i src_row 0) row,
                  store j (nth j src_list 0) lst,
                  S j))
              (seq 0 m) (row, lst, j)
    = (firstn m src_row ++ skipn m row,
       firstn j lst ++ firstn m (skipn j src_list) ++ skipn (j + m) lst,
       (j + m)%nat).
Proof.
  induction m as [| m IH]; intros row lst j H1 H2 H3 H4.
  - cbn [seq fold_left firstn skipn app]. rewrite Nat.add_0_r.
    rewrite firstn_skipn. reflexivity.
  - rewrite seq_S, fold_left_app, IH by lia. cbn [fold_left Nat.add].
    f_equal; [f_equal | lia].
    + assert (Hl : length (firstn m src_row) = m)
        by (rewrite length_firstn; lia).
      rewrite <- Hl at 1. rewrite store_app_here.
      rewrite (skipn_cons_nth row m) by lia. cbn [store].
      rewrite (firstn_succ_nth src_row m) by lia.
      rewrite <- app_assoc. reflexivity.
    + rewrite app_assoc.
      assert (Hl : length (firstn j lst ++ firstn m (skipn j src_list))
                   = (j + m)%nat).
      { rewrite length_app, !length_firstn, length_skipn. lia. }
      rewrite <- Hl at 1. rewrite store_app_here.
      rewrite (skipn_cons_nth lst (j + m)) by lia. cbn [store].
      rewrite (firstn_succ_nth (skipn j src_list) m)
        by (rewrite length_skipn; lia).
      rewrite nth_skipn, <- !app_assoc.
      replace (j + S m)%nat with (S (j + m)) by lia. reflexivity.
Qed.

(** X2.  The two loops over the fixed bits share the running index [j]: for
    counts [F0] and [F1] that are not negative and fit the arrays, each row
    of [Fs_Fixed_Bit_TAB] receives the first [F0] (or [F1]) entries of its
    source row, and [Fs_Fixed_Bit_List] receives the first [F0 + F1] entries
    of its source, the second loop going on where the first stopped; the
    rest of each array is as it was. *)
Theorem load_fixed_bits_result F0 F1
  (src0 src1 src_list row0 row1 lst : list Z) :
  0 <= F0 -> 0 <= F1 ->
  (Z.to_nat F0 <= length src0)%nat -> (Z.to_nat F0 <= length row0)%nat ->
  (Z.to_nat F1 <= length src1)%nat -> (Z.to_nat F1 <= length row1)%nat ->
  (Z.to_nat (F0 + F1) <= length src_list)%nat ->
  (Z.to_nat (F0 + F1) <= length lst)%nat ->
  load_fixed_bits F0 F1 src0 src1 src_list row0 row1 lst
  = (firstn (Z.to_nat F0) src0 ++ skipn (Z.to_nat F0) row0,
     firstn (Z.to_nat F1) src1 ++ skipn (Z.to_nat F1) row1,
     firstn (Z.to_nat (F0 + F1)) src_list
     ++ skipn (Z.to_nat (F0 + F1)) lst).
Proof.
  intros P0 P1 H1 H2 H3 H4 H5 H6. unfold load_fixed_bits, fixed_bits_loop.
  rewrite fixed_bits_loop_steps by lia.
  rewrite fixed_bits_loop_steps
    by (rewrite ?length_app, ?length_firstn, ?length_skipn; lia).
  cbn [firstn skipn app Nat.add].
  f_equal. replace (Z.to_nat (F0 + F1)) with (Z.to_nat F0 + Z.to_nat F1)%nat
    by lia.
  set (a := Z.to_nat F0). set (b := Z.to_nat F1).
  assert (LX : length (firstn a src_list) = a)
    by (rewrite length_firstn; lia).
  rewrite firstn_app, LX, Nat.sub_diag. cbn [firstn].
  rewrite app_nil_r, firstn_firstn, Nat.min_id.
  rewrite skipn_app, LX. replace (a + b - a)%nat with b by lia.
  rewrite skipn_skipn, (skipn_all2 (firstn a src_list)) by lia.
  cbn [app]. rewrite (Nat.add_comm b a), app_assoc. f_equal.
  rewrite <- (firstn_skipn a (firstn (a + b) src_list)).
  rewrite firstn_firstn, Nat.min_l by lia.
  rewrite skipn_firstn_comm. replace (a + b - a)%nat with b by lia.
  reflexivity.
Qed.

Lemma load_fixed_bits_result_witness :
  load_fixed_bits 2 1 [7; 8; 9] [4; 5] [10; 11; 12; 13]
    [0; 0; 0] [0; 0] [0; 0; 0; 0]
  = ([7; 8; 0], [4; 0], [10; 11; 12; 0]).
Proof.
  rewrite load_fixed_bits_result; cbn; try lia. reflexivity.
Defined.

Lemma ALLOW_NEG_even n x :
  x < 0 -> Z.even (- x) = true -> ALLOW_NEG n x = Z.quot x 2 + 1.
Proof.
  intros Hx He. unfold ALLOW_NEG.
  destruct (Z.ltb_spec x 0); [| lia].
  rewrite rem_neg_parity, <- Z.negb_even, He by assumption. reflexivity.
Qed.

Lemma ALLOW_NEG_odd n x :
  x < 0 -> Z.odd (- x) = true -> ALLOW_NEG n x = Z.quot (- x) 2 - n + 1.
Proof.
  intros Hx Ho. unfold ALLOW_NEG.
  destruct (Z.ltb_spec x 0); [| lia].
  rewrite rem_neg_parity, Ho by assumption. reflexivity.
Qed.

Lemma ALLOW_NEG_nonneg n x : 0 <= x -> ALLOW_NEG n x = x.
Proof.
  intros Hx. unfold ALLOW_NEG. destruct (Z.ltb_spec x 0); [lia | reflexivity].
Qed.

(** X3.  What [ALLOW_NEG] loads can be read back when the kind of the entry
    is known, and not otherwise: an entry that is not negative is the value
    itself; a negative entry with [-x] even gives a value [v <= 0] and is
    [2 * (v - 1)]; a negative entry with [-x] odd gives a value
    [v >= 1 - N1_2] and is [- (2 * (v + N1_2 - 1) + 1)]; but the entries
    [-2] and [0] load as the same value. *)
Theorem ALLOW_NEG_recover n x :
  (0 <= x -> x = ALLOW_NEG n x) /\
  (x < 0 -> Z.even (- x) = true ->
   ALLOW_NEG n x <= 0 /\ x = 2 * (ALLOW_NEG n x - 1)) /\
  (x < 0 -> Z.odd (- x) = true ->
   1 - n <= ALLOW_NEG n x /\ x = - (2 * (ALLOW_NEG n x + n - 1) + 1)) /\
  ALLOW_NEG n (-2) = ALLOW_NEG n 0.
Proof.
  split; [| split; [| split]].
  - intros Hx. rewrite ALLOW_NEG_nonneg by exact Hx. reflexivity.
  - intros Hx He. rewrite ALLOW_NEG_even by assumption.
    assert (Hm : (- x) mod 2 = 0)
      by (rewrite Zmod_even, He; reflexivity).
    Z.quot_rem_to_equations. Z.div_mod_to_equations. lia.
  - intros Hx Ho. rewrite ALLOW_NEG_odd by assumption.
    assert (Hm : (- x) mod 2 = 1)
      by (rewrite Zmod_odd, Ho; reflexivity).
    Z.quot_rem_to_equations. Z.div_mod_to_equations. lia.
  - reflexivity.
Qed.

Lemma ALLOW_NEG_recover_witness :
  -4 = 2 * (ALLOW_NEG 30 (-4) - 1) /\
  -5 = - (2 * (ALLOW_NEG 30 (-5) + 30 - 1) + 1) /\
  7 = ALLOW_NEG 30 7.
Proof.
  destruct (ALLOW_NEG_recover 30 (-4)) as (_ & H1 & _).
  destruct (ALLOW_NEG_recover 30 (-5)) as (_ & _ & H2 & _).
  destruct (ALLOW_NEG_recover 30 7) as (H3 & _).
  split; [apply H1; [lia | reflexivity] |].
  split; [apply H2; [lia | reflexivity] | apply H3; lia].
Defined.




(** ** The command line *)

Lemma atoi_unsigned c r :
  Ascii.eqb c "-" = false -> Ascii.eqb c "+" = false ->
  skip_spaces (String c r) = String c r ->
  atoi (String c r) = int (read_digits 0 (String c r)).
Proof.
  intros Hm Hp Hs. unfold atoi. rewrite Hs.
  destruct c as [[] [] [] [] [] [] [] []];
    first [reflexivity | discriminate Hm | discriminate Hp].
Qed.

Lemma skip_spaces_idem s : skip_spaces (skip_spaces s) = skip_spaces s.
Proof.
  induction s as [| c r IH]; [reflexivity |].
  cbn [skip_spaces]. destruct (isspace c) eqn:E; [exact IH |].
  cbn [skip_spaces]. rewrite E. reflexivity.
Qed.

Lemma atoi_skip_spaces s : atoi s = atoi (skip_spaces s).
Proof. unfold atoi. rewrite skip_spaces_idem. reflexivity. Qed.

Lemma read_digits_no_digit s :
  digit_value (first_char s) = None -> read_digits 0 s = 0.
Proof.
  destruct s as [| c r]; [reflexivity |]. cbn [first_char read_digits].
  intros ->. reflexivity.
Qed.

(** Without a number to read, [atoi] answers 0. *)
Lemma atoi_no_number s : starts_number s = false -> atoi s = 0.
Proof.
  unfold starts_number. rewrite atoi_skip_spaces.
  pose proof (skip_spaces_idem s) as Hi.
  destruct (skip_spaces s) as [| c r]; [reflexivity |].
  destruct (Ascii.eqb c "-") eqn:Em.
  - apply Ascii.eqb_eq in Em. subst c. cbn [orb].
    destruct (digit_value (first_char r)) eqn:Ed; [discriminate |].
    intros _. unfold atoi. rewrite Hi.
    rewrite (read_digits_no_digit r Ed). reflexivity.
  - destruct (Ascii.eqb c "+") eqn:Ep.
    + apply Ascii.eqb_eq in Ep. subst c. cbn [orb].
      destruct (digit_value (first_char r)) eqn:Ed; [discriminate |].
      intros _. unfold atoi. rewrite Hi.
      rewrite (read_digits_no_digit r Ed). reflexivity.
    + cbn [orb]. destruct (digit_value c) eqn:Ed; [discriminate |].
      intros _. rewrite (atoi_unsigned c r Em Ep Hi).
      rewrite (read_digits_no_digit (String c r) Ed). reflexivity.
Qed.

Section Runs.

Context {decoder_state : Type}.
Variable trellis0 : decoder_state.
Variables Desinterleaving_Speech Desinterleaving_Signalling : list Z -> list Z.
Variable Channel_Decoding :
  params -> decoder_state -> Z -> Z -> list Z -> list Z ->
  Z * list Z * decoder_state.
Variables TETRA AMR475 : coder_tab.

Local Abbreviation state := (state decoder_state).
Local Abbreviation decoded_bfi :=
  (decoded_bfi decoder_state Desinterleaving_Speech
     Desinterleaving_Signalling Channel_Decoding).
Local Abbreviation decode_slot :=
  (decode_slot decoder_state Desinterleaving_Speech
     Desinterleaving_Signalling Channel_Decoding).
Local Abbreviation process_slot :=
  (process_slot decoder_state Desinterleaving_Speech
     Desinterleaving_Signalling Channel_Decoding).
Local Abbreviation main_loop :=
  (main_loop decoder_state Desinterleaving_Speech
     Desinterleaving_Signalling Channel_Decoding).
Local Abbreviation pass :=
  (pass decoder_state Desinterleaving_Speech
     Desinterleaving_Signalling Channel_Decoding).
Local Abbreviation command_line := (command_line TETRA AMR475).
Local Abbreviation main :=
  (main decoder_state trellis0 Desinterleaving_Speech
     Desinterleaving_Signalling Channel_Decoding TETRA AMR475).
Local Abbreviation stored slot s := (set_Interleaved_coded_array slot s).

(** The lemmas on one pass, for the routines of this section. *)
Local Abbreviation pass_writes_only :=
  (process_slot_writes_only Desinterleaving_Speech
     Desinterleaving_Signalling Channel_Decoding).
Local Abbreviation decoding_frame :=
  (decode_slot_frame Desinterleaving_Speech
     Desinterleaving_Signalling Channel_Decoding).

(** X5.  The [CoderType] argument.  The command line is refused exactly when
    a fourth argument is there and [atoi] reads neither 0 nor 1 from it.
    Otherwise the coder is TETRA with two speech frames per slot or AMR475
    with three; it is TETRA without stealing when the argument is missing,
    and also when the argument holds no number at all, which [atoi] reads
    as 0. *)
Theorem CoderType_argument argv :
  (command_line argv = None <->
   (4 <= length argv)%nat /\
   atoi (arg argv 3) <> 0 /\ atoi (arg argv 3) <> 1) /\
  forall g,
    command_line argv = Some g ->
    ((CoderType g = 0 /\ SpFrms_per_TDMFrm (P g) = 2) \/
     (CoderType g = 1 /\ SpFrms_per_TDMFrm (P g) = 3)) /\
    P g = init_params TETRA AMR475 (CoderType g) /\
    ((length argv < 4)%nat -> CoderType g = 0 /\ FRAME_STEALING g = 0) /\
    ((4 <= length argv)%nat -> CoderType g = atoi (arg argv 3)) /\
    (starts_number (arg argv 3) = false -> CoderType g = 0).
Proof.
  unfold command_line.
  destruct (Z.geb_spec (Z.of_nat (length argv)) 4) as [H4 | H4].
  - set (c := atoi (arg argv 3)).
    destruct (Z.ltb_spec c 0) as [Hlo | Hlo]; cbn [orb].
    + split; [split; [intros _; lia | reflexivity] | discriminate].
    + rewrite Z.gtb_ltb.
      destruct (Z.ltb_spec 1 c) as [Hhi | Hhi].
      * split; [split; [intros _; lia | reflexivity] | discriminate].
      * split; [split; [discriminate | intros (_ & A & B); lia] |].
        intros g [= <-]. cbn [CoderType FRAME_STEALING P].
        assert (Hc : c = 0 \/ c = 1) by lia.
        split; [destruct Hc as [-> | ->]; [left | right];
                split; reflexivity |].
        split; [reflexivity |]. split; [lia |].
        split; [reflexivity |].
        intros Hn. apply atoi_no_number. exact Hn.
  - split; [split; [discriminate | intros (A & _); lia] |].
    intros g [= <-]. cbn [CoderType FRAME_STEALING P].
    split; [left; split; reflexivity |]. split; [reflexivity |].
    split; [auto |]. split; [lia | reflexivity].
Qed.

(** ** How a run ends *)

Lemma argc_in_range (argv : list string) :
  (Z.of_nat (length argv) <? 3) || (Z.of_nat (length argv) >? 5) = false
  <-> (3 <= length argv <= 5)%nat.
Proof.
  rewrite Z.gtb_ltb, orb_false_iff, !Z.ltb_ge. lia.
Qed.

(** X6.  The exit status.  [main] ends with status 0 or 1.  It is 0 exactly
    when the number of arguments is in range, both files open and the
    [CoderType] is legal, whatever happens to the writes later.  With
    status 1 it has printed one message and decoded nothing; a wrong number
    of arguments is reported before any file is opened, and an illegal
    [CoderType] only after both files have been opened. *)
Theorem exit_status argv fs u :
  let r := main argv fs u in
  (status_of r = 0 \/ status_of r = 1) /\
  (status_of r = 0 <->
   (3 <= length argv <= 5)%nat /\
   open_rb fs (arg argv 1) <> None /\
   open_wb fs (arg argv 2) <> None /\
   command_line argv <> None) /\
  (status_of r = 1 ->
   exists m, r = Exit 1 [m] /\
             In m [usage; cant_open_input; cant_open_output;
                   illegal_CoderType]) /\
  (~ (3 <= length argv <= 5)%nat -> r = Exit 1 [usage]) /\
  (r = Exit 1 [illegal_CoderType] ->
   open_rb fs (arg argv 1) <> None /\ open_wb fs (arg argv 2) <> None).
Proof.
  cbv zeta. unfold main.
  pose proof (argc_in_range argv) as Hr.
  destruct ((Z.of_nat (length argv) <? 3) || (Z.of_nat (length argv) >? 5)).
  - assert (Hn : ~ (3 <= length argv <= 5)%nat)
      by (intros H; apply Hr in H; discriminate).
    cbn [status_of]. split; [auto |]. split; [split; [discriminate | tauto] |].
    split; [intros _; exists usage; cbn; tauto |].
    split; [reflexivity | discriminate].
  - assert (Hy : (3 <= length argv <= 5)%nat) by (apply Hr; reflexivity).
    destruct (open_rb fs (arg argv 1)) as [fin |].
    + destruct (open_wb fs (arg argv 2)) as [f |].
      * destruct (command_line argv) as [g |].
        -- cbn [status_of]. split; [auto |].
           split; [split; [intros _; repeat split; discriminate || lia
                          | reflexivity] |].
           split; [discriminate |]. split; [tauto | discriminate].
        -- cbn [status_of]. split; [auto |].
           split; [split; [discriminate | tauto] |].
           split; [intros _; exists illegal_CoderType; cbn; tauto |].
           split; [tauto | intros _; split; discriminate].
      * cbn [status_of]. split; [auto |].
        split; [split; [discriminate | tauto] |].
        split; [intros _; exists cant_open_output; cbn; tauto |].
        split; [tauto | discriminate].
    + cbn [status_of]. split; [auto |].
      split; [split; [discriminate | tauto] |].
      split; [intros _; exists cant_open_input; cbn; tauto |].
      split; [tauto | discriminate].
Qed.

(** X7.  An input file without a slot.  The run prints that the end of the
    input is reached and that 0 channel frames, that is 0 speech frames,
    were processed; it calls neither [fwrite] nor the decoder, and ends with
    status 0. *)
Theorem empty_input argv fs u f g :
  (3 <= length argv <= 5)%nat ->
  open_rb fs (arg argv 1) = Some [] ->
  open_wb fs (arg argv 2) = Some f ->
  command_line argv = Some g ->
  exists s,
    main argv fs u = Return 0 s /\
    stdout s = [end_of_input; frames_processed 0; speech_frames 0] /\
    fout s = f /\
    trellis s = trellis0 /\
    Loop_counter s = 0.
Proof.
  intros Hr Hi Ho Hg. unfold main.
  apply argc_in_range in Hr. rewrite Hr, Hi, Ho, Hg.
  eexists. split; [reflexivity |].
  rewrite main_loop_nil. unfold schedule.
  destruct (FRAME_STEALING g =? 0); cbn; rewrite Z.mul_0_r; auto.
Qed.

Lemma command_line_params argv g :
  command_line argv = Some g ->
  (CoderType g = 0 \/ CoderType g = 1) /\
  P g = init_params TETRA AMR475 (CoderType g).
Proof.
  unfold command_line.
  destruct (Z.of_nat (length argv) >=? 4).
  - set (c := atoi (arg argv 3)).
    destruct (Z.ltb_spec c 0); cbn [orb]; [discriminate |].
    rewrite Z.gtb_ltb. destruct (Z.ltb_spec 1 c); [discriminate |].
    intros [= <-]. cbn [CoderType P]. split; [lia | reflexivity].
  - intros [= <-]. cbn [CoderType P]. split; [auto | reflexivity].
Qed.

Lemma command_line_frames argv g :
  command_line argv = Some g ->
  SpFrms_per_TDMFrm (P g) = 2 \/ SpFrms_per_TDMFrm (P g) = 3.
Proof.
  intros H. apply command_line_params in H as [[Hc | Hc] ->];
    rewrite Hc; [left | right]; reflexivity.
Qed.

Lemma slot_messages_only stealing bfi nb :
  forallb slot_message
    ((if stealing =? 0 then [] else [was_stolen nb])
     ++ (if bfi =? 0 then [] else [bfi_active nb])) = true.
Proof. destruct (stealing =? 0), (bfi =? 0); reflexivity. Qed.

(** The loop from any state on: the messages of the slots, then the one
    message that tells why the loop was left; the counter has counted the
    slots decoded. *)
Lemma main_loop_outcome g fin :
  forall s : state,
    0 <= Loop_counter s ->
    Loop_counter s + Z.of_nat (length fin) < 2 ^ 31 ->
    exists msgs t (k : nat),
      stdout (main_loop g fin s) = stdout s ++ msgs ++ [t] /\
      forallb slot_message msgs = true /\
      Loop_counter (main_loop g fin s) = Loop_counter s + Z.of_nat k /\
      ((t = end_of_input /\ k = length fin) \/
       (t = cant_write /\ (1 <= k <= length fin)%nat)).
Proof.
  induction fin as [| slot rest IH]; intros s H0 Hk.
  - exists [], end_of_input, O. rewrite main_loop_nil. cbn [stdout print].
    rewrite schedule_stdout. cbn [Loop_counter print].
    rewrite schedule_Loop_counter. cbn [app length]. repeat split; auto.
    lia.
  - rewrite main_loop_cons. cbn [length] in Hk.
    destruct (process_slot g slot (schedule g s)) as [s1 fl] eqn:E.
    pose proof (pass_writes_only g slot (schedule g s)) as Hw.
    rewrite E in Hw. destruct Hw as (_ & _ & _ & _ & _ & _ & _ & _ & Hw).
    cbn [fst snd] in Hw. rewrite decode_slot_stdout in Hw.
    cbn [stdout Loop_counter Frame_stealing set_Interleaved_coded_array]
      in Hw.
    rewrite schedule_stdout in Hw.
    apply process_slot_counter in E as [E1 _].
    rewrite schedule_Loop_counter, Word32_small in E1 by lia.
    set (m0 := (if Frame_stealing (schedule g s) =? 0 then []
                else [was_stolen (Word32 (Loop_counter (schedule g s) + 1))])
               ++ (if decoded_bfi g (stored slot (schedule g s)) =? 0
                   then []
                   else [bfi_active
                           (Word32 (Loop_counter (schedule g s) + 1))]))
      in Hw.
    assert (Hm : forallb slot_message m0 = true)
      by apply slot_messages_only.
    destruct fl.
    + destruct (IH s1) as (msgs & t & k & S1 & S2 & S3 & S4); [lia | lia |].
      exists (m0 ++ msgs), t, (S k).
      rewrite S1, Hw, S3, E1, app_nil_r, forallb_app, Hm, S2.
      rewrite <- !app_assoc. repeat split; [lia |].
      destruct S4 as [[-> ->] | [-> Hle]]; [left | right];
        split; cbn [length]; auto; lia.
    + exists m0, cant_write, 1%nat. rewrite Hw, E1, <- app_assoc.
      repeat split; auto. right. split; [reflexivity | cbn [length]; lia].
Qed.

(** X8.  The report of a run.  Once the files are open and the coder is
    legal, the run ends with status 0 and its standard output is: the
    messages of the slots (stolen, Bfi active), then one message that tells
    why the loop was left, the end of the input or the failed write, then
    the two counts.  The count of channel frames is the number of slots
    decoded: all the slots of the input when the end was reached, and at
    least one, the slot whose write failed included, after a failed write;
    the count of speech frames is two or three times as much, by the
    coder. *)
Theorem run_report argv fs u fin f g :
  (3 <= length argv <= 5)%nat ->
  open_rb fs (arg argv 1) = Some fin ->
  open_wb fs (arg argv 2) = Some f ->
  command_line argv = Some g ->
  3 * Z.of_nat (length fin) < 2 ^ 31 ->
  exists s msgs t (K : nat),
    main argv fs u = Return 0 s /\
    stdout s
    = msgs ++ [t; frames_processed (Z.of_nat K);
               speech_frames (SpFrms_per_TDMFrm (P g) * Z.of_nat K)] /\
    forallb slot_message msgs = true /\
    Loop_counter s = Z.of_nat K /\
    ((t = end_of_input /\ K = length fin) \/
     (t = cant_write /\ (1 <= K <= length fin)%nat)).
Proof.
  intros Hr Hi Ho Hg Hn. unfold main.
  apply argc_in_range in Hr. rewrite Hr, Hi, Ho, Hg.
  destruct (main_loop_outcome g fin (initial_state trellis0 u f))
    as (msgs & t & K & S1 & S2 & S3 & S4); [cbn; lia | cbn; lia |].
  cbn [Loop_counter stdout initial_state app] in S1, S3.
  rewrite Z.add_0_l in S3.
  eexists _, msgs, t, K. split; [reflexivity |].
  cbn [stdout Loop_counter print]. rewrite S1, S3.
  assert (HK : (K <= length fin)%nat)
    by (destruct S4 as [[_ ->] | [_ H]]; lia).
  rewrite Word32_small
    by (destruct (command_line_frames argv g Hg) as [-> | ->]; lia).
  rewrite <- !app_assoc. repeat split; auto.
Qed.

(** ** The size of the output of a run *)



(** The device stays without fault through the writing part. *)
Lemma tl_never_fails (q : list (option nat)) :
  Forall (fun x => x = @None nat) q -> Forall (fun x => x = @None nat) (tl q).
Proof. intros H. destruct q; [exact H | inversion H; assumption]. Qed.

Lemma then_never_fails (a b : step decoder_state) :
  (forall s, never_fails (fout s) -> never_fails (fout (fst (a s)))) ->
  (forall s, never_fails (fout s) -> never_fails (fout (fst (b s)))) ->
  forall s, never_fails (fout s) -> never_fails (fout (fst (then_ a b s))).
Proof.
  intros Ha Hb s H. specialize (Ha s H). unfold then_.
  destruct (a s) as [s1 [|]]; cbn [fst] in *; [apply Hb |]; exact Ha.
Qed.

Lemma fwrite_or_break_never_fails ptr n (s : state) :
  never_fails (fout s) -> never_fails (fout (fst (fwrite_or_break ptr n s))).
Proof.
  unfold never_fails, fwrite_or_break, fwrite. intros H.
  match goal with |- context [negb ?c] => destruct (negb c) end;
    cbn; apply tl_never_fails; exact H.
Qed.

Lemma fwrite_never_fails ptr n (s : state) :
  never_fails (fout s) -> never_fails (fout (fst (fwrite_ ptr n s))).
Proof.
  unfold never_fails, fwrite_, fwrite. intros H. cbn.
  apply tl_never_fails; exact H.
Qed.

Lemma write_slot_never_fails g (s : state) :
  never_fails (fout s) -> never_fails (fout (fst (write_slot g s))).
Proof.
  unfold write_slot. destruct (CoderType g =? 0).
  - unfold write_TETRA. revert s.
    repeat (apply then_never_fails;
            [intros; apply fwrite_or_break_never_fails; assumption |]).
    intros; apply fwrite_or_break_never_fails; assumption.
  - unfold write_AMR. revert s.
    repeat (apply then_never_fails;
            [intros s Hs;
             first [ apply fwrite_or_break_never_fails; exact Hs
                   | apply fwrite_never_fails; exact Hs
                   | exact Hs ] |]).
    intros; apply fwrite_never_fails; assumption.
Qed.

Lemma never_fails_no_fault k f : never_fails f -> no_fault k f.
Proof.
  unfold never_fails, no_fault. intros H.
  rewrite <- (firstn_skipn k (faults f)) in H.
  apply Forall_app in H. apply H.
Qed.

Lemma decode_slot_Reordered_array g (s : state) :
  Reordered_array (decode_slot g s)
  = snd (fst (Channel_Decoding (P g) (trellis s) (first_pass s)
                (Frame_stealing s)
                (deinterleave Desinterleaving_Speech
                   Desinterleaving_Signalling (Frame_stealing s)
                   (Interleaved_coded_array s))
                (Reordered_array s))).
Proof.
  unfold decode_slot.
  destruct (Channel_Decoding _ _ _ _ _ _) as [[r R'] d'].
  destruct (CoderType g =? 0); reflexivity.
Qed.

(** The number of words a slot adds to the output. *)
Lemma pass_without_fault g slot (s : state) :
  never_fails (fout s) ->
  keeps_room Channel_Decoding (P g) (emitted g) ->
  CoderType g = 0 \/
  (CoderType g = 1 /\ 0 <= Length_vocoder_frame (P g) <= 244) ->
  exists s',
    process_slot g slot s = (s', Continue) /\
    never_fails (fout s') /\
    length (written (fout s'))
    = (length (written (fout s))
       + (if (CoderType g =? 0)%Z then 276 else 750))%nat.
Proof.
  intros Hf Hroom Hc.
  set (d := decode_slot g (stored slot s)).
  destruct (decoding_frame g (stored slot s)) as (_ & _ & Hfd & _).
  fold d in Hfd. cbn [fout set_Interleaved_coded_array] in Hfd.
  assert (HR : (emitted g <= length (Reordered_array d))%nat).
  { subst d. rewrite decode_slot_Reordered_array. apply Hroom. }
  assert (Hfs : never_fails (fout (fst (process_slot g slot s)))).
  { unfold process_slot. apply write_slot_never_fails.
    fold d. rewrite Hfd. exact Hf. }
  unfold emitted in HR. unfold process_slot, write_slot in *.
  fold d in Hfs |- *.
  destruct Hc as [Hc | [Hc HL]]; rewrite Hc in *; cbn [Z.eqb] in *.
  - destruct (write_TETRA_no_fault d) as [s' Hs'];
      [exact HR | apply never_fails_no_fault; rewrite Hfd; exact Hf |].
    exists s'. rewrite Hs' in Hfs. split; [exact Hs' |].
    split; [exact Hfs |].
    apply write_TETRA_Continue in Hs'. destruct Hs' as (Hw & L1 & L2).
    rewrite Hw, Hfd. unfold TETRA_record.
    rewrite length_app. cbn [length]. rewrite length_app. cbn [length].
    rewrite L1, L2. lia.
  - destruct (write_AMR_no_fault g d) as (s' & Hs' & Hw);
      [exact HL | exact HR
      | apply never_fails_no_fault; rewrite Hfd; exact Hf |].
    exists s'. rewrite Hs' in Hfs. split; [exact Hs' |].
    split; [exact Hfs |].
    rewrite Hw, Hfd, !length_app.
    rewrite !AMR_record_length;
      [lia | exact HL | | exact HL | | exact HL |];
      rewrite length_firstn, ?length_skipn; lia.
Qed.

Lemma main_loop_without_fault g fin :
  keeps_room Channel_Decoding (P g) (emitted g) ->
  CoderType g = 0 \/
  (CoderType g = 1 /\ 0 <= Length_vocoder_frame (P g) <= 244) ->
  forall s : state,
    never_fails (fout s) ->
    ~ In cant_write (stdout s) ->
    ~ In cant_write (stdout (main_loop g fin s)) /\
    length (written (fout (main_loop g fin s)))
    = (length (written (fout s))
       + (if (CoderType g =? 0)%Z then 276 else 750) * length fin)%nat.
Proof.
  intros Hroom Hc. induction fin as [| slot rest IH]; intros s Hf Hn.
  - rewrite main_loop_nil. cbn [stdout fout print].
    rewrite schedule_stdout, schedule_fout. split; [| cbn [length]; lia].
    intros H. apply in_app_or in H as [H | [H | []]];
      [contradiction | discriminate].
  - rewrite main_loop_cons.
    destruct (pass_without_fault g slot (schedule g s))
      as (s1 & E & Hf1 & Hl); [rewrite schedule_fout; exact Hf | | |];
      [exact Hroom | exact Hc |].
    rewrite E.
    pose proof (pass_writes_only g slot (schedule g s)) as Hw.
    rewrite E in Hw. destruct Hw as (_ & _ & _ & _ & _ & _ & _ & _ & Hw).
    cbn [fst snd] in Hw. rewrite decode_slot_stdout, app_nil_r in Hw.
    cbn [stdout set_Interleaved_coded_array] in Hw.
    rewrite schedule_stdout in Hw.
    destruct (IH s1 Hf1) as [I1 I2].
    + rewrite Hw. intros H.
      apply in_app_or in H as [H | H]; [contradiction |].
      apply in_app_or in H as [H | H].
      * destruct (Frame_stealing _ =? 0); [destruct H |].
        destruct H as [H | []]; discriminate.
      * destruct (decoded_bfi _ _ =? 0); [destruct H |].
        destruct H as [H | []]; discriminate.
    + split; [exact I1 |]. rewrite I2, Hl, schedule_fout.
      cbn [length]. lia.
Qed.

(** X10.  Output framing on a device that never fails.  When no [fwrite]
    falls short and [Reordered_array] holds the frames of a slot, the run
    reports no failed write and the output file has grown by 276 words (552
    bytes) for every slot of the input in TETRA mode, and by 750 words (1500
    bytes) in AMR475 mode, for a vocoder frame length between 0 and 244. *)
Theorem run_without_fault argv fs u fin f g :
  (3 <= length argv <= 5)%nat ->
  open_rb fs (arg argv 1) = Some fin ->
  open_wb fs (arg argv 2) = Some f ->
  command_line argv = Some g ->
  never_fails f ->
  keeps_room Channel_Decoding (P g) (emitted g) ->
  (CoderType g = 1 -> 0 <= Length_vocoder_frame (P g) <= 244) ->
  exists s,
    main argv fs u = Return 0 s /\
    ~ In cant_write (stdout s) /\
    length (written (fout s))
    = (length (written f)
       + (if (CoderType g =? 0)%Z then 276 else 750) * length fin)%nat /\
    file_bytes (fout s)
    = (file_bytes f
       + (if (CoderType g =? 0)%Z then 552 else 1500) * length fin)%nat.
Proof.
  intros Hr Hi Ho Hg Hf Hroom HL. unfold main.
  apply argc_in_range in Hr. rewrite Hr, Hi, Ho, Hg.
  eexists. split; [reflexivity |]. cbn [stdout fout print].
  assert (Hc : CoderType g = 0 \/
               (CoderType g = 1 /\ 0 <= Length_vocoder_frame (P g) <= 244)).
  { destruct (command_line_params argv g Hg) as [[Hc | Hc] _]; auto. }
  destruct (main_loop_without_fault g fin Hroom Hc
              (initial_state trellis0 u f)) as [H1 H2];
    [exact Hf | intros [] |].
  cbn [written fout initial_state] in H2.
  split; [| split].
  - intros H. apply in_app_or in H as [H | [H | []]]; [| discriminate].
    apply in_app_or in H as [H | [H | []]]; [contradiction | discriminate].
  - exact H2.
  - unfold file_bytes. rewrite H2.
    destruct (CoderType g =? 0); lia.
Qed.

(** ** More input, more output *)

Lemma begins_refl {A : Type} (l : list A) : begins l l.
Proof. exists []. symmetry. apply app_nil_r. Qed.

Lemma begins_trans {A : Type} (l1 l2 l3 : list A) :
  begins l1 l2 -> begins l2 l3 -> begins l1 l3.
Proof.
  intros [r1 ->] [r2 ->]. exists (r1 ++ r2). rewrite app_assoc. reflexivity.
Qed.

(** The loop only appends to the output file. *)
Lemma main_loop_appends g fin :
  forall s : state,
    begins (written (fout s)) (written (fout (main_loop g fin s))).
Proof.
  induction fin as [| slot rest IH]; intros s.
  - rewrite main_loop_nil. cbn [fout print]. rewrite schedule_fout.
    apply begins_refl.
  - rewrite main_loop_cons.
    pose proof (pass_writes_only g slot (schedule g s)) as Hw.
    destruct (decoding_frame g (stored slot (schedule g s)))
      as (_ & _ & Hf & _).
    cbn [fout set_Interleaved_coded_array] in Hf.
    rewrite schedule_fout in Hf.
    destruct (process_slot g slot (schedule g s)) as [s1 fl].
    destruct Hw as (_ & _ & _ & _ & _ & _ & _ & Hw & _).
    cbn [fst] in Hw. rewrite Hf in Hw.
    destruct fl; [| exact Hw].
    apply (begins_trans _ (written (fout s1))); [exact Hw | apply IH].
Qed.

Lemma main_loop_prefix g fin more :
  forall s : state,
    begins (written (fout (main_loop g fin s)))
           (written (fout (main_loop g (fin ++ more) s))).
Proof.
  induction fin as [| slot rest IH]; intros s.
  - rewrite main_loop_nil. cbn [fout print app].
    rewrite schedule_fout. apply main_loop_appends.
  - cbn [app]. rewrite !main_loop_cons.
    destruct (process_slot g slot (schedule g s)) as [s1 [|]];
      [apply IH | apply begins_refl].
Qed.

(** X11.  The output for the first slots does not wait for the later ones:
    with the same arguments and the same output device, the words a run
    writes for an input file are the beginning of the words it writes for
    that file with more slots after it; and both begin with what the output
    stream held when it was opened. *)
Theorem output_prefix argv fs1 fs2 u fin more f g :
  (3 <= length argv <= 5)%nat ->
  open_rb fs1 (arg argv 1) = Some fin ->
  open_rb fs2 (arg argv 1) = Some (fin ++ more) ->
  open_wb fs1 (arg argv 2) = Some f ->
  open_wb fs2 (arg argv 2) = Some f ->
  command_line argv = Some g ->
  exists s1 s2,
    main argv fs1 u = Return 0 s1 /\
    main argv fs2 u = Return 0 s2 /\
    begins (written f) (written (fout s1)) /\
    begins (written (fout s1)) (written (fout s2)).
Proof.
  intros Hr Hi1 Hi2 Ho1 Ho2 Hg. unfold main.
  apply argc_in_range in Hr. rewrite Hr, Hi1, Hi2, Ho1, Ho2, Hg.
  eexists _, _. split; [reflexivity |]. split; [reflexivity |].
  cbn [fout print]. split.
  - apply (main_loop_appends g fin (initial_state trellis0 u f)).
  - apply main_loop_prefix.
Qed.

(** ** What the decoder is told *)

Lemma schedule_first_pass g (s : state) :
  first_pass (schedule g s) = first_pass s.
Proof. unfold schedule. destruct (FRAME_STEALING g =? 0); reflexivity. Qed.

Lemma process_slot_first_pass g slot (s s' : state) fl :
  process_slot g slot s = (s', fl) -> first_pass s' = 0.
Proof.
  intros Hp. pose proof (pass_writes_only g slot s) as Hw.
  rewrite Hp in Hw. destruct Hw as (_ & Hw & _). cbn [fst] in Hw.
  rewrite Hw. unfold decode_slot.
  destruct (Channel_Decoding _ _ _ _ _ _) as [[r R'] d'].
  destruct (CoderType g =? 0); reflexivity.
Qed.

Lemma pass_first_pass g fin :
  forall (s : state) k slot sk,
    pass g fin s k = Some (slot, sk) ->
    first_pass sk = match k with O => first_pass s | S _ => 0 end.
Proof.
  induction fin as [| slot0 rest IH]; intros s k slot sk Hp.
  - rewrite pass_nil in Hp. discriminate Hp.
  - rewrite pass_cons in Hp. destruct k as [| k].
    + injection Hp as _ <-. apply schedule_first_pass.
    + destruct (process_slot g slot0 (schedule g s)) as [s1 [|]] eqn:E;
        [| discriminate].
      apply process_slot_first_pass in E. apply IH in Hp. rewrite Hp.
      destruct k; [exact E | reflexivity].
Qed.

(** X12.  [first_pass] is set for the first slot and for no other: in the
    pass of index [k], [Channel_Decoding] is called with [first_pass] 1 when
    [k] is 0 and with 0 otherwise, on the deinterleaved slot and with the
    stealing flag of the pass. *)
Theorem first_pass_once g u f fin k slot (s : state) :
  pass g fin (initial_state trellis0 u f) k = Some (slot, s) ->
  (first_pass s = 1 <-> k = O) /\
  (first_pass s = 0 <-> k <> O) /\
  decoded decoder_state Desinterleaving_Speech Desinterleaving_Signalling
    Channel_Decoding g (stored slot s)
  = Channel_Decoding (P g) (trellis s)
      (match k with O => 1 | S _ => 0 end) (Frame_stealing s)
      (deinterleave Desinterleaving_Speech Desinterleaving_Signalling
         (Frame_stealing s) slot)
      (Reordered_array s).
Proof.
  intros Hp. apply pass_first_pass in Hp.
  cbn [first_pass initial_state] in Hp.
  unfold decoded.
  cbn [Frame_stealing Interleaved_coded_array trellis first_pass
       Reordered_array set_Interleaved_coded_array].
  rewrite Hp. destruct k; repeat split; intros; try reflexivity;
    try discriminate; try lia; congruence.
Qed.

End Runs.

(** ** The signalling deinterleaver *)

Lemma main_loop_no_stealing {decoder_state : Type}
  (Speech Signalling Signalling' : list Z -> list Z)
  (Channel_Decoding :
     params -> decoder_state -> Z -> Z -> list Z -> list Z ->
     Z * list Z * decoder_state) g fin :
  FRAME_STEALING g = 0 ->
  forall s : state decoder_state,
    Frame_stealing s = 0 ->
    main_loop decoder_state Speech Signalling Channel_Decoding g fin s
    = main_loop decoder_state Speech Signalling' Channel_Decoding g fin s.
Proof.
  intros Hg. induction fin as [| slot rest IH]; intros s Hs.
  - rewrite !main_loop_nil. reflexivity.
  - rewrite !main_loop_cons.
    assert (E : process_slot decoder_state Speech Signalling
                  Channel_Decoding g slot (schedule g s)
                = process_slot decoder_state Speech Signalling'
                    Channel_Decoding g slot (schedule g s)).
    { unfold schedule. rewrite Hg. cbn [Z.eqb].
      unfold process_slot, decode_slot, deinterleave.
      cbn [Frame_stealing set_Interleaved_coded_array].
      rewrite Hs. reflexivity. }
    rewrite <- E.
    destruct (process_slot decoder_state Speech Signalling Channel_Decoding
                g slot (schedule g s)) as [s1 [|]] eqn:E1; [| reflexivity].
    apply IH. apply process_slot_counter in E1 as [_ E1].
    rewrite E1. unfold schedule. rewrite Hg. exact Hs.
Qed.

(** X13.  [Desinterleaving_Signalling] is used for stolen slots only: when
    the command line does not ask for stealing, the whole run, messages,
    output and final state, is the same whatever that routine does. *)
Theorem signalling_only_when_stealing {decoder_state : Type}
  (trellis0 : decoder_state)
  (Speech Signalling Signalling' : list Z -> list Z)
  (Channel_Decoding :
     params -> decoder_state -> Z -> Z -> list Z -> list Z ->
     Z * list Z * decoder_state)
  (TETRA AMR475 : coder_tab) argv fs u :
  stealing_requested argv = false ->
  main decoder_state trellis0 Speech Signalling Channel_Decoding
    TETRA AMR475 argv fs u
  = main decoder_state trellis0 Speech Signalling' Channel_Decoding
      TETRA AMR475 argv fs u.
Proof.
  intros Hr. unfold main.
  destruct ((Z.of_nat (length argv) <? 3) || (Z.of_nat (length argv) >? 5));
    [reflexivity |].
  destruct (open_rb fs (arg argv 1)) as [fin |]; [| reflexivity].
  destruct (open_wb fs (arg argv 2)) as [f |]; [| reflexivity].
  destruct (command_line TETRA AMR475 argv) as [g |] eqn:Hg;
    [| reflexivity].
  apply command_line_FRAME_STEALING in Hg. rewrite Hr in Hg.
  rewrite (main_loop_no_stealing Speech Signalling Signalling'
             Channel_Decoding g fin Hg (initial_state trellis0 u f)
             eq_refl).
  reflexivity.
Qed.

(** ** The further theorems at work on sample runs *)

Lemma CoderType_argument_witness :
  command_line Sample.TETRA Sample.AMR475 (Sample.cdecoder ["AMR"]%string)
  = Some Sample.g_TETRA /\
  CoderType Sample.g_TETRA = 0.
Proof.
  assert (E : command_line Sample.TETRA Sample.AMR475
                (Sample.cdecoder ["AMR"]%string) = Some Sample.g_TETRA)
    by reflexivity.
  split; [exact E |].
  destruct (CoderType_argument Sample.TETRA Sample.AMR475
              (Sample.cdecoder ["AMR"]%string)) as [_ H].
  destruct (H Sample.g_TETRA E) as (_ & _ & _ & _ & H5).
  apply H5. reflexivity.
Defined.

Lemma exit_status_witness :
  status_of (Sample.main 0 (Sample.cdecoder ["1"]%string)
               (Sample.files 2 []) Sample.stack) = 0 /\
  Sample.main 0 ["cdecoder"; "in"]%string (Sample.files 2 []) Sample.stack
  = Exit 1 [usage].
Proof.
  split.
  - destruct (exit_status tt Sample.Desinterleaving Sample.Desinterleaving
                (Sample.Channel_Decoding 286 0) Sample.TETRA Sample.AMR475
                (Sample.cdecoder ["1"]%string) (Sample.files 2 [])
                Sample.stack) as (_ & [_ H] & _).
    apply H. repeat split; try discriminate; cbn; lia.
  - destruct (exit_status tt Sample.Desinterleaving Sample.Desinterleaving
                (Sample.Channel_Decoding 286 0) Sample.TETRA Sample.AMR475
                ["cdecoder"; "in"]%string (Sample.files 2 [])
                Sample.stack) as (_ & _ & _ & H & _).
    apply H. cbn. lia.
Defined.

Lemma empty_input_witness :
  exists s,
    Sample.main 0 (Sample.cdecoder ["1"; "S"]%string) (Sample.files 0 [])
      Sample.stack = Return 0 s /\
    stdout s = [end_of_input; frames_processed 0; speech_frames 0].
Proof.
  destruct (empty_input tt Sample.Desinterleaving Sample.Desinterleaving
              (Sample.Channel_Decoding 286 0) Sample.TETRA Sample.AMR475
              (Sample.cdecoder ["1"; "S"]%string) (Sample.files 0 [])
              Sample.stack (mk_FILE_out [] [])
              (mk_globals 1 1
                 (init_params Sample.TETRA Sample.AMR475 1)))
    as (s & H1 & H2 & _);
    [cbn; lia | reflexivity | reflexivity | reflexivity |].
  exists s. split; [exact H1 | exact H2].
Defined.

Lemma run_report_witness :
  exists s msgs t (K : nat),
    Sample.main 1 (Sample.cdecoder ["0"; "S"]%string) (Sample.files 3 [])
      Sample.stack = Return 0 s /\
    stdout s
    = msgs ++ [t; frames_processed (Z.of_nat K);
               speech_frames (2 * Z.of_nat K)] /\
    Loop_counter s = Z.of_nat K.
Proof.
  destruct (run_report tt Sample.Desinterleaving Sample.Desinterleaving
              (Sample.Channel_Decoding 286 1) Sample.TETRA Sample.AMR475
              (Sample.cdecoder ["0"; "S"]%string) (Sample.files 3 [])
              Sample.stack (repeat Sample.slot 3) (mk_FILE_out [] [])
              Sample.g_TETRA_S)
    as (s & msgs & t & K & H1 & H2 & _ & H3 & _);
    [cbn; lia | reflexivity | reflexivity | reflexivity
    | vm_compute; reflexivity |].
  exists s, msgs, t, K. split; [exact H1 |]. split; [exact H2 | exact H3].
Defined.


Lemma run_without_fault_witness :
  exists s,
    Sample.main 0 (Sample.cdecoder ["1"]%string) (Sample.files 2 [])
      Sample.stack = Return 0 s /\
    ~ In cant_write (stdout s) /\
    length (written (fout s)) = 1500%nat.
Proof.
  destruct (run_without_fault tt Sample.Desinterleaving
              Sample.Desinterleaving (Sample.Channel_Decoding 286 0)
              Sample.TETRA Sample.AMR475 (Sample.cdecoder ["1"]%string)
              (Sample.files 2 []) Sample.stack (repeat Sample.slot 2)
              (mk_FILE_out [] []) Sample.g_AMR475)
    as (s & H1 & H2 & H3 & _).
  - cbn; lia.
  - reflexivity.
  - reflexivity.
  - reflexivity.
  - constructor.
  - intros d first stealing coded R. unfold Sample.Channel_Decoding.
    cbn [fst snd]. rewrite length_app, repeat_length.
    change (emitted Sample.g_AMR475) with 285%nat. lia.
  - intros _. cbn. lia.
  - exists s. split; [exact H1 |]. split; [exact H2 |].
    rewrite H3. reflexivity.
Defined.

Lemma output_prefix_witness :
  exists s1 s2,
    Sample.main 0 (Sample.cdecoder []) (Sample.files 2 []) Sample.stack
    = Return 0 s1 /\
    Sample.main 0 (Sample.cdecoder []) (Sample.files 3 []) Sample.stack
    = Return 0 s2 /\
    begins (written (fout s1)) (written (fout s2)).
Proof.
  destruct (output_prefix tt Sample.Desinterleaving Sample.Desinterleaving
              (Sample.Channel_Decoding 286 0) Sample.TETRA Sample.AMR475
              (Sample.cdecoder []) (Sample.files 2 []) (Sample.files 3 [])
              Sample.stack (repeat Sample.slot 2) [Sample.slot]
              (mk_FILE_out [] []) Sample.g_TETRA)
    as (s1 & s2 & H1 & H2 & _ & H3);
    [cbn; lia | reflexivity | reflexivity | reflexivity | reflexivity
    | reflexivity |].
  exists s1, s2. split; [exact H1 |]. split; [exact H2 | exact H3].
Defined.

Lemma first_pass_once_witness :
  Sample.pass 0 Sample.g_TETRA_S (repeat Sample.slot 3) Sample.start 2
  = Some (Sample.slot, Sample.third_good) /\
  first_pass Sample.third_good = 0.
Proof.
  assert (E : Sample.pass 0 Sample.g_TETRA_S (repeat Sample.slot 3)
                Sample.start 2 = Some (Sample.slot, Sample.third_good))
    by (vm_compute; reflexivity).
  split; [exact E |].
  destruct (first_pass_once tt Sample.Desinterleaving
              Sample.Desinterleaving (Sample.Channel_Decoding 286 0)
              Sample.g_TETRA_S Sample.stack (mk_FILE_out [] [])
              (repeat Sample.slot 3) 2%nat Sample.slot Sample.third_good E)
    as (_ & [_ H] & _).
  apply H. discriminate.
Defined.

Lemma signalling_only_when_stealing_witness :
  Sample.main 1 (Sample.cdecoder ["1"]%string) (Sample.files 2 [])
    Sample.stack
  = main unit tt Sample.Desinterleaving (fun _ => [])
      (Sample.Channel_Decoding 286 1) Sample.TETRA Sample.AMR475
      (Sample.cdecoder ["1"]%string) (Sample.files 2 []) Sample.stack.
Proof.
  apply signalling_only_when_stealing. reflexivity.
Defined.

(** ** The writes that are checked *)

Section Checks.

Context {decoder_state : Type}.
Variable R : list Z.

Local Abbreviation state := (state decoder_state).
Local Abbreviation step := (step decoder_state).

Lemma checks_then (a b : step) k1 k2 b1 b2 :
  checks a k1 b1 R -> checks b k2 b2 R ->
  checks (then_ a b) (k2 + k1) (fun q => b1 q || b2 (skipn k1 q)) R.
Proof.
  intros Ha Hb s HR. destruct (Ha s HR) as [A1 A2]. unfold then_.
  destruct (a s) as [s1 fl]. cbn [fst snd] in *.
  destruct (b1 (faults (fout s))); cbn [orb].
  - subst fl. split; [reflexivity | discriminate].
  - subst fl. destruct (A2 eq_refl) as [A3 A4].
    destruct (Hb s1 A4) as [B1 B2]. rewrite A3 in B1, B2.
    split; [exact B1 |]. intros H. destruct (B2 H) as [B3 B4].
    rewrite B3, skipn_skipn. auto.
Qed.

Lemma checks_ext (a : step) k k' b b' :
  k = k' -> (forall q, b q = b' q) -> checks a k b R -> checks a k' b' R.
Proof.
  intros <- Hb Ha s HR. rewrite <- Hb. apply Ha. exact HR.
Qed.

Lemma checks_fwrite_or_break ptr n :
  0 <= n ->
  (forall s : state,
      Reordered_array s = R -> (Z.to_nat n <= length (ptr s))%nat) ->
  checks (fwrite_or_break ptr n) 1 (fun q => short (nth 0 q None) n) R.
Proof.
  intros Hn Hptr s HR. specialize (Hptr s HR).
  unfold fwrite_or_break, fwrite.
  destruct (faults (fout s)) as [| [k |] q] eqn:E; cbn [nth short tl skipn].
  - rewrite length_firstn, Nat.min_l, Z2Nat.id, Z.eqb_refl by lia.
    cbn. auto.
  - rewrite length_firstn.
    destruct (Z.ltb_spec (Z.of_nat k) n) as [Hk | Hk].
    + replace (Z.of_nat _ =? n) with false
        by (symmetry; apply Z.eqb_neq; lia).
      cbn. split; [reflexivity | discriminate].
    + replace (Z.of_nat _ =? n) with true
        by (symmetry; apply Z.eqb_eq; lia).
      cbn. auto.
  - rewrite length_firstn, Nat.min_l, Z2Nat.id, Z.eqb_refl by lia.
    cbn. auto.
Qed.

Lemma checks_fwrite ptr n :
  checks (@fwrite_ decoder_state ptr n) 1 (fun _ => false) R.
Proof.
  intros s HR. unfold fwrite_, fwrite. cbn.
  split; [reflexivity |]. intros _. split; [| exact HR].
  destruct (faults (fout s)); reflexivity.
Qed.

Lemma checks_bfi3_of v :
  checks (@bfi3_of decoder_state v) 0 (fun _ => false) R.
Proof. intros s HR. cbn. auto. Qed.

Lemma checks_set_mode v :
  checks (@assign decoder_state (set_mode v)) 0 (fun _ => false) R.
Proof. intros s HR. cbn. auto. Qed.

Ltac buffer_holds :=
  intros ? E; cbn beta; rewrite ?length_skipn, ?E; cbn [length]; lia.

Lemma write_TETRA_checks :
  (274 <= length R)%nat ->
  checks (@write_TETRA decoder_state) 4 TETRA_breaks R.
Proof.
  intros HR. unfold write_TETRA.
  eapply checks_ext; cycle 2.
  - repeat (eapply checks_then;
            [apply checks_fwrite_or_break;
             [lia | buffer_holds] |]).
    apply checks_fwrite_or_break;
      [lia | buffer_holds].
  - reflexivity.
  - intros q. unfold TETRA_breaks.
    rewrite !skipn_skipn, !nth_skipn. cbn [Nat.add].
    rewrite !orb_assoc. reflexivity.
Qed.

Lemma write_AMR_checks g :
  0 <= Length_vocoder_frame (P g) ->
  (3 * Z.to_nat (Length_vocoder_frame (P g)) <= length R)%nat ->
  checks (@write_AMR decoder_state g) 15
    (AMR_breaks (Length_vocoder_frame (P g))) R.
Proof.
  intros HL HR. unfold write_AMR.
  set (Lvf := Length_vocoder_frame (P g)) in *.
  eapply checks_ext; cycle 2.
  - repeat (eapply checks_then;
            [first [ apply checks_set_mode
                   | apply checks_bfi3_of
                   | apply checks_fwrite
                   | apply checks_fwrite_or_break;
                     [lia | buffer_holds] ]
            |]).
    apply checks_fwrite.
  - reflexivity.
  - intros q. unfold AMR_breaks.
    rewrite !skipn_skipn, !nth_skipn. cbn [Nat.add skipn].
    rewrite ?orb_false_r, ?orb_false_l, !orb_assoc. reflexivity.
Qed.

End Checks.

Section CheckedWrites.

Context {decoder_state : Type}.
Variables Desinterleaving_Speech Desinterleaving_Signalling : list Z -> list Z.
Variable Channel_Decoding :
  params -> decoder_state -> Z -> Z -> list Z -> list Z ->
  Z * list Z * decoder_state.

Local Abbreviation state := (state decoder_state).
Local Abbreviation decode_slot :=
  (decode_slot decoder_state Desinterleaving_Speech
     Desinterleaving_Signalling Channel_Decoding).
Local Abbreviation process_slot :=
  (process_slot decoder_state Desinterleaving_Speech
     Desinterleaving_Signalling Channel_Decoding).
Local Abbreviation stored slot s := (set_Interleaved_coded_array slot s).

(** X14.  The writes that can end the loop.  With [Reordered_array] holding
    the frames to write, a TETRA pass leaves the loop exactly when one of its
    four calls of [fwrite] falls short, and an AMR pass exactly when its
    call 0, 1, 5, 6, 10 or 11 does: a header or a speech frame.  Whatever the
    device does at the nine other calls of an AMR pass, the padding and the
    mode words, the pass goes on, and a pass that goes on has made all its
    calls, 4 or 15. *)
Theorem checked_writes g slot (s : state) :
  let d := decode_slot g (stored slot s) in
  let q := faults (fout s) in
  let Lvf := Length_vocoder_frame (P g) in
  let r := process_slot g slot s in
  (CoderType g = 0 ->
   (274 <= length (Reordered_array d))%nat ->
   (snd r = Break <-> TETRA_breaks q = true) /\
   (snd r = Continue -> faults (fout (fst r)) = skipn 4 q)) /\
  (CoderType g <> 0 ->
   0 <= Lvf ->
   (3 * Z.to_nat Lvf <= length (Reordered_array d))%nat ->
   (snd r = Break <-> AMR_breaks Lvf q = true) /\
   (snd r = Continue -> faults (fout (fst r)) = skipn 15 q)).
Proof.
  intros d q Lvf r.
  assert (Hq : faults (fout d) = q).
  { subst d q.
    destruct (decode_slot_frame Desinterleaving_Speech
                Desinterleaving_Signalling Channel_Decoding g
                (stored slot s)) as (_ & _ & -> & _).
    reflexivity. }
  subst r. unfold process_slot, write_slot. fold d. split.
  - intros Hc HR. rewrite Hc. cbn [Z.eqb].
    destruct (write_TETRA_checks (Reordered_array d) HR d eq_refl)
      as [A B].
    rewrite Hq in A, B. rewrite A.
    destruct (TETRA_breaks q).
    + split; [tauto | discriminate].
    + split; [split; discriminate | intros _; apply B; reflexivity].
  - intros Hc HL HR. apply Z.eqb_neq in Hc. rewrite Hc.
    destruct (write_AMR_checks (Reordered_array d) g HL HR d eq_refl)
      as [A B].
    rewrite Hq in A, B. rewrite A. fold Lvf in B |- *.
    destruct (AMR_breaks Lvf q).
    + split; [tauto | discriminate].
    + split; [split; discriminate | intros _; apply B; reflexivity].
Qed.

End CheckedWrites.

Lemma checked_writes_witness :
  (let q := [None; None; Some 0%nat] in
   let r := Sample.process_slot 0 Sample.g_TETRA Sample.slot
              (initial_state tt Sample.stack (mk_FILE_out [] q)) in
   (snd r = Break <-> TETRA_breaks q = true) /\
   (snd r = Continue -> faults (fout (fst r)) = skipn 4 q)) /\
  (let q := [None; None; Some 7%nat; Some 0%nat; Some 3%nat] in
   let r := Sample.process_slot 0 Sample.g_AMR475 Sample.slot
              (initial_state tt Sample.stack (mk_FILE_out [] q)) in
   (snd r = Break <-> AMR_breaks 95 q = true) /\
   (snd r = Continue -> faults (fout (fst r)) = skipn 15 q)).
Proof.
  split.
  - apply (checked_writes Sample.Desinterleaving Sample.Desinterleaving
             (Sample.Channel_Decoding 286 0) Sample.g_TETRA Sample.slot
             (initial_state tt Sample.stack
                (mk_FILE_out [] [None; None; Some 0%nat]))).
    + reflexivity.
    + apply Nat.leb_le. vm_compute. reflexivity.
  - apply (checked_writes Sample.Desinterleaving Sample.Desinterleaving
             (Sample.Channel_Decoding 286 0) Sample.g_AMR475 Sample.slot
             (initial_state tt Sample.stack
                (mk_FILE_out [] [None; None; Some 7%nat; Some 0%nat;
                                 Some 3%nat]))).
    + discriminate.
    + apply Z.leb_le. vm_compute. reflexivity.
    + apply Nat.leb_le. vm_compute. reflexivity.
Defined.
